(** * run.py: the signal-rate batch pipeline

    A shallow embedding of [src/run.py]: configuration validation, the
    trailing-window mean, signal generation, metrics aggregation and the
    top-level runner with its catch-all error handler.

    Number model.  Prices and window statistics are float64 cells in pandas.
    A cell is modelled as [fval]: [None] is NaN and [Some q] is the finite
    double whose value is the rational [q]; an infinity, which only an
    overflow inside the rolling kernel can produce, is held as
    [Some (+-2^1024)], the value beyond every finite double.  Negative
    zero is not told apart from zero.  The arithmetic of the rolling
    kernel, the signal rate and its 4-decimal rounding, and the elapsed
    time are modelled in binary64 with the rounding written out, see
    [Float64].

    Effects.  [main] runs in a state-and-exception monad.  What the run
    reads from outside (the parsed configuration, the decoded table, the
    clock, whether a write or a print goes through) is given by a [World];
    what it does (log records, reads, the seeding, writes) is recorded in
    the state.  Only exceptions derived from [Exception] are modelled; the
    log sink is a list of records. *)

From Stdlib Require Import ZArith QArith Qround Qabs Qpower Qcanon.
From Stdlib Require Import Lqa Lia String Bool.
From stdpp Require Import base option list strings.

Local Open Scope Z_scope.
#[local] Set Warnings "-register-all".

(** ** Float cells *)

(** A float64 cell: [None] is NaN. *)
Definition fval : Type := option Q.

Definition NaN : fval := None.

(** [a > b] on float cells: any comparison with NaN is false. *)
Definition fgt (a b : fval) : bool :=
  match a, b with
  | Some x, Some y => if Qlt_le_dec y x then true else false
  | _, _ => false
  end.


(** ** binary64 arithmetic, rounding written out

    A finite double is modelled by the rational it denotes.  [round64] is
    round-to-nearest, ties-to-even, onto the 53-bit significand grid: the
    rounding of the normal range, which the signal rate and the readings
    of the clock never leave.  [fl] further down is the rounding over the
    whole range, for the arithmetic on prices. *)

Module Float64.

(** Nearest integer, ties to the even one. *)
Definition round_half_even (q : Q) : Z :=
  let f := Qfloor q in
  match (q - inject_Z f ?= 1 # 2)%Q with
  | Lt => f
  | Gt => f + 1
  | Eq => if Z.even f then f else f + 1
  end.

(** [floor (log2 q)] for [q > 0]. *)
Definition ilog2 (q : Q) : Z :=
  let l := Z.log2 (Qnum q) - Z.log2 (Zpos (Qden q)) in
  if Qle_bool (2 ^ l) q then l else l - 1.

Definition round64 (q : Q) : Q :=
  if Qeq_bool q 0 then 0%Q
  else
    let e := ilog2 (Qabs q) - 52 in
    Qred (inject_Z (round_half_even (q / 2 ^ e)) * 2 ^ e).

(** The double a decimal literal denotes, e.g. [literal (6 # 10)] for
    Python's [0.6]. *)
Definition literal (q : Q) : Q := round64 q.

(** Python's [round(x, ndigits)] on a float: the exact value of [x] is
    rounded half-to-even to [ndigits] decimals (correctly rounded
    decimal conversion), and the decimal is read back as the nearest
    double.  [round(nan, n)] is [nan]. *)
Definition py_round (x : fval) (ndigits : nat) : fval :=
  match x with
  | None => NaN
  | Some q =>
      let scale := inject_Z (10 ^ Z.of_nat ndigits) in
      Some (round64 (inject_Z (round_half_even (q * scale)) / scale))
  end.

(** Python's [int(x)] on a float: truncation toward zero. *)
Definition py_int (q : Q) : Z := Z.quot (Qnum q) (Zpos (Qden q)).

(** [a - b] and [a * b] on doubles of the normal range. *)
Definition sub64 (a b : Q) : Q := round64 (a - b).

Definition mul64 (a b : Q) : Q := round64 (a * b).

(** *** The whole range

    Round-to-nearest, ties-to-even, as IEEE 754 defines it for binary64:
    53-bit significands, exponents no smaller than that of the
    subnormals ([2^-1074] is the smallest step), and a result that
    rounds to [2^1024] or beyond is an infinity, held as [+-huge]. *)

Definition huge : Q := 2 ^ 1024.

Definition is_inf (x : Q) : bool := Qle_bool huge (Qabs x).

Definition fl (q : Q) : Q :=
  if Qeq_bool q 0 then 0%Q
  else
    let e := Z.max (ilog2 (Qabs q) - 52) (-1074) in
    let r := Qred (inject_Z (round_half_even (q / 2 ^ e)) * 2 ^ e) in
    if is_inf r then (if Qle_bool 0 q then huge else - huge) else r.

(** [-a] *)
Definition fneg (a : fval) : fval :=
  match a with
  | Some x => Some (- x)%Q
  | None => NaN
  end.

(** [a + b]: NaN when an operand is NaN or the operands are infinities
    of opposite signs. *)
Definition fadd (a b : fval) : fval :=
  match a, b with
  | Some x, Some y =>
      if is_inf x
      then
        if is_inf y && negb (Bool.eqb (Qle_bool 0 x) (Qle_bool 0 y))
        then NaN
        else Some x
      else if is_inf y then Some y
      else Some (fl (x + y))
  | _, _ => NaN
  end.

(** [a - b] *)
Definition fsub (a b : fval) : fval := fadd a (fneg b).

(** [a / <float64_t>n] for a count [n > 0]. *)
Definition fdiv_count (a : fval) (n : Z) : fval :=
  match a with
  | Some x => if is_inf x then Some x else Some (fl (x / fl (inject_Z n)))
  | None => NaN
  end.

(** [a == b] *)
Definition feq (a b : fval) : bool :=
  match a, b with
  | Some x, Some y => Qeq_bool x y
  | _, _ => false
  end.

(** [signbit(x)]; negative zero is not modelled. *)
Definition signbit (x : Q) : bool := negb (Qle_bool 0 x).

End Float64.

(** ** pandas: [Series.rolling(window).mean()]

    [Rolling.mean] hands the float64 values, the window bounds and
    [min_periods] to the kernel [roll_mean] of
    [pandas/_libs/window/aggregations.pyx].  A fixed integer window uses
    the right-closed indexer [end(i) = i + 1],
    [start(i) = max(0, i + 1 - window)], and [min_periods] defaults to
    the window.  The kernel (as of pandas 1.5 and later) keeps a running
    sum with Kahan compensation: moving to the next row it removes the
    values that left the window and adds those that entered it; the
    value of a row is the running sum divided by the number of non-NaN
    observations when that number reaches [min_periods], NaN otherwise.
    The cells of a table are finite. *)

(** The locals of the kernel. *)
Record mean_state : Type :=
  { nobs : Z;
    sum_x : fval;
    neg_ct : Z;
    compensation_add : fval;
    compensation_remove : fval;
    num_consecutive_same_value : Z;
    prev_value : fval }.

(** [add_mean]: a NaN value is skipped. *)
Definition add_mean (val : fval) (st : mean_state) : mean_state :=
  match val with
  | None => st
  | Some v =>
      let y := Float64.fsub val (compensation_add st) in
      let t := Float64.fadd (sum_x st) y in
      {| nobs := nobs st + 1;
         sum_x := t;
         neg_ct := if Float64.signbit v then neg_ct st + 1 else neg_ct st;
         compensation_add := Float64.fsub (Float64.fsub t (sum_x st)) y;
         compensation_remove := compensation_remove st;
         num_consecutive_same_value :=
           if Float64.feq val (prev_value st)
           then num_consecutive_same_value st + 1
           else 1;
         prev_value := val |}
  end.

(** [remove_mean] *)
Definition remove_mean (val : fval) (st : mean_state) : mean_state :=
  match val with
  | None => st
  | Some v =>
      let y := Float64.fsub (Float64.fneg val) (compensation_remove st) in
      let t := Float64.fadd (sum_x st) y in
      {| nobs := nobs st - 1;
         sum_x := t;
         neg_ct := if Float64.signbit v then neg_ct st - 1 else neg_ct st;
         compensation_add := compensation_add st;
         compensation_remove := Float64.fsub (Float64.fsub t (sum_x st)) y;
         num_consecutive_same_value := num_consecutive_same_value st;
         prev_value := prev_value st |}
  end.

(** [calc_mean]: a window of equal values yields that value, and a
    result whose sign no observation has is set to zero. *)
Definition calc_mean (minp : Z) (st : mean_state) : fval :=
  if (minp <=? nobs st) && (0 <? nobs st)
  then
    let result := Float64.fdiv_count (sum_x st) (nobs st) in
    if nobs st <=? num_consecutive_same_value st then prev_value st
    else if (neg_ct st =? 0) && fgt (Some 0%Q) result then Some 0%Q
    else if (neg_ct st =? nobs st) && fgt result (Some 0%Q) then Some 0%Q
    else result
  else NaN.

(** The bounds [start(i)], [end(i)] of the fixed window. *)
Definition window_bounds (window i : nat) : nat * nat :=
  ((i + 1 - window)%nat, (i + 1)%nat).

(** [values[j]] *)
Definition value_at (values : list fval) (j : nat) : fval :=
  default NaN (values !! j).

(** The locals as the set-up branch initialises them. *)
Definition mean_setup (values : list fval) (s : nat) : mean_state :=
  {| nobs := 0; sum_x := Some 0%Q; neg_ct := 0;
     compensation_add := Some 0%Q; compensation_remove := Some 0%Q;
     num_consecutive_same_value := 0;
     prev_value := value_at values s |}.

Definition add_rows (values : list fval) (rows : list nat) (st : mean_state)
  : mean_state :=
  foldl (fun st j => add_mean (value_at values j) st) st rows.

Definition remove_rows (values : list fval) (rows : list nat)
    (st : mean_state) : mean_state :=
  foldl (fun st j => remove_mean (value_at values j) st) st rows.

(** One turn of the loop over the rows: the locals after row [i].  The
    set-up branch is taken at row 0 and when the window shares no row
    with the previous one ([s >= end[i - 1]]). *)
Definition mean_step (values : list fval) (window i : nat) (st : mean_state)
  : mean_state :=
  let s := fst (window_bounds window i) in
  let e := snd (window_bounds window i) in
  if (i =? 0)%nat || (i <=? s)%nat
  then add_rows values (seq s (e - s)) (mean_setup values s)
  else
    let s0 := fst (window_bounds window (i - 1)) in
    let e0 := snd (window_bounds window (i - 1)) in
    add_rows values (seq e0 (e - e0))
      (remove_rows values (seq s0 (s - s0)) st).

Fixpoint roll_mean_loop (values : list fval) (window : nat) (minp : Z)
    (rows : list nat) (st : mean_state) : list fval :=
  match rows with
  | [] => []
  | i :: rows' =>
      let st' := mean_step values window i st in
      calc_mean minp st' :: roll_mean_loop values window minp rows' st'
  end.

Definition roll_mean (values : list fval) (window minp : nat) : list fval :=
  roll_mean_loop values window (Z.of_nat minp) (seq 0 (length values))
    (mean_setup values 0).

Definition Zsum (l : list Z) : Z := foldr Z.add 0 l.

(** pandas: [Series.mean()] of an int64 series: the sum accumulated in
    float64 (exact for a 0/1 series) divided by the count; NaN when the
    series is empty. *)
Definition series_mean (s : list Z) : fval :=
  match s with
  | [] => NaN
  | _ => Some (Float64.round64
                 (inject_Z (Zsum s) / inject_Z (Z.of_nat (length s))))
  end.

(** [round(float(signals.mean()), 4)] *)
Definition signal_rate (signals : list Z) : fval :=
  Float64.py_round (series_mean signals) 4.

(** ** Python values *)

Inductive pyval : Type :=
| PyNone
| PyBool (b : bool)
| PyInt (z : Z)
| PyFloat (x : fval)
| PyStr (s : string)
| PyList (l : list pyval)
| PyDict (d : list (pyval * pyval)).

(** [isinstance(v, int)]: [bool] is a subclass of [int]. *)
Definition isinstance_int (v : pyval) : bool :=
  match v with PyBool _ | PyInt _ => true | _ => false end.

Definition isinstance_str (v : pyval) : bool :=
  match v with PyStr _ => true | _ => false end.

Definition isinstance_dict (v : pyval) : bool :=
  match v with PyDict _ => true | _ => false end.

(** The integer an [int] instance stands for ([True] is 1, [False] is 0);
    only consulted on [int] instances. *)
Definition int_of (v : pyval) : Z :=
  match v with
  | PyInt z => z
  | PyBool b => Z.b2z b
  | _ => 0
  end.

(** Truth value of an object, as [not v] tests it. *)
Definition truthy (v : pyval) : bool :=
  match v with
  | PyNone => false
  | PyBool b => b
  | PyInt z => negb (z =? 0)
  | PyFloat x => match x with Some q => negb (Qeq_bool q 0) | None => true end
  | PyStr s => negb (String.eqb s "")
  | PyList l => match l with [] => false | _ => true end
  | PyDict d => match d with [] => false | _ => true end
  end.

(** A dict keeps its items in insertion order.  A [str] key is equal only
    to the same [str]. *)
Definition key_is (k : string) (v : pyval) : bool :=
  match v with PyStr s => String.eqb s k | _ => false end.

Fixpoint dict_get (d : list (pyval * pyval)) (k : string) : option pyval :=
  match d with
  | [] => None
  | (k', v) :: d' => if key_is k k' then Some v else dict_get d' k
  end.

(** [k in v] *)
Definition contains (v : pyval) (k : string) : bool :=
  match v with
  | PyDict d => match dict_get d k with Some _ => true | None => false end
  | _ => false
  end.

(** The JSON object [json.dump] writes for a dict with [str] keys: the
    items in insertion order.  The text layout ([indent=2]) is a function
    of this value and is not modelled. *)
Definition json_doc : Type := list (string * pyval).

Fixpoint doc_get (d : json_doc) (k : string) : option pyval :=
  match d with
  | [] => None
  | (k', v) :: d' => if String.eqb k' k then Some v else doc_get d' k
  end.

(** ** Exceptions *)

Inductive exn_class : Type :=
| FileNotFoundError | ValueError | KeyError | TypeError
| EmptyDataError | ParserError | DataError | OverflowError
| OSError | YAMLError | OtherException (name : string).

(** An exception instance: its class and [str(e)]. *)
Record exn : Type := Exn { exn_class_of : exn_class; exn_str : string }.

Inductive result (A : Type) : Type :=
| Ok (a : A)
| Raise (e : exn).
Arguments Ok {A} a.
Arguments Raise {A} e.

(** ** Tables *)

(** A CSV cell after type inference: a number (or NaN for a missing
    value), or text. *)
Inductive cell : Type :=
| CNum (x : fval)
| CStr (s : string).

(** A DataFrame: named columns in file order and the length of the index. *)
Record DataFrame : Type :=
  { df_columns : list (string * list cell); df_nrows : nat }.

Fixpoint df_column (cols : list (string * list cell)) (name : string)
  : option (list cell) :=
  match cols with
  | [] => None
  | (n, c) :: cols' => if String.eqb n name then Some c else df_column cols' name
  end.

(** [df.empty]: some axis has length 0. *)
Definition df_empty (df : DataFrame) : bool :=
  match df_columns df with
  | [] => true
  | _ => (df_nrows df =? 0)%nat
  end.

(** The float64 view of a column; [None] when the column is of object
    dtype (some cell is text). *)
Fixpoint numeric_values (col : list cell) : option (list fval) :=
  match col with
  | [] => Some []
  | CNum x :: col' => cons x <$> numeric_values col'
  | CStr _ :: _ => None
  end.

(** The table whose only column is a numeric [close]. *)
Definition price_table (closes : list fval) : DataFrame :=
  {| df_columns := [("close"%string, CNum <$> closes)];
     df_nrows := length closes |}.

(** ** The environment of one run *)

Record Args : Type :=
  { arg_input : string; arg_config : string;
    arg_output : string; arg_log_file : string }.

(** What the output path holds. *)
Inductive file_state : Type :=
| NoFile
| Document (d : json_doc)
| Partial.

(** One call of [write_output]: [open(path, 'w')] may fail and leave the
    path untouched; [json.dump] may fail after the file was truncated. *)
Inductive write_outcome : Type :=
| Written
| OpenFails (e : exn)
| DumpFails (e : exn).

(** Everything the run reads from outside.  Argument parsing and the
    logging set-up happen before the [try] block and are outside the
    model; the log file is not modelled, see [log_apart]. *)
Record World : Type :=
  { args : Args;
    (** [None]: [args.config] is not a file; otherwise what
        [open] + [yaml.safe_load] do *)
    config_source : option (result pyval);
    (** [None]: [args.input] is not a file; otherwise what
        [pd.read_csv] does *)
    input_source : option (result DataFrame);
    (** the n-th reading of [time.time()], in seconds *)
    clock : nat -> Q;
    (** the outcome of the n-th call of [write_output] *)
    write_attempt : nat -> write_outcome;
    (** [None]: [print] to standard output succeeds *)
    print_attempt : option exn;
    (** what the output path holds before the run *)
    initial_output : file_state }.

Inductive log_level : Type := INFO | ERROR.

Inductive event : Type :=
| EvLog (level : log_level) (fmt : string) (log_args : list pyval)
| EvIsFile (path : string)
| EvYamlLoad (path : string)
| EvSeed (seed : Z)
| EvReadCsv (path : string)
| EvWrite (path : string) (doc : json_doc)
| EvPrint (doc : json_doc).

Record State : Type :=
  { out_file : file_state;
    clock_reads : nat;
    write_count : nat;
    (** the local variable [version] of [main] *)
    version_var : pyval;
    (** the side effects so far, oldest first *)
    trace : list event }.

Definition with_trace (s : State) (ev : event) : State :=
  {| out_file := out_file s; clock_reads := clock_reads s;
     write_count := write_count s; version_var := version_var s;
     trace := trace s ++ [ev] |}.

Definition init_state (w : World) : State :=
  {| out_file := initial_output w; clock_reads := 0%nat;
     write_count := 0%nat; version_var := PyNone; trace := [] |}.

(** ** The state-and-exception monad of the runner *)

Definition M (A : Type) : Type := State -> result A * State.

Definition ret {A} (a : A) : M A := fun s => (Ok a, s).

Definition bind {A B} (m : M A) (k : A -> M B) : M B :=
  fun s =>
    match m s with
    | (Ok a, s') => k a s'
    | (Raise e, s') => (Raise e, s')
    end.

Definition raise {A} (e : exn) : M A := fun s => (Raise e, s).

(** [try: body  except Exception as e: handler(e)].  Effects of the body
    up to the raise are kept. *)
Definition try_except {A} (body : M A) (handler : exn -> M A) : M A :=
  fun s =>
    match body s with
    | (Ok a, s') => (Ok a, s')
    | (Raise e, s') => handler e s'
    end.

Definition lift {A} (r : result A) : M A := fun s => (r, s).

Definition emit (ev : event) : M unit := fun s => (Ok tt, with_trace s ev).

Declare Scope run_scope.
Delimit Scope run_scope with run.
Notation "x <- m ;; k" := (bind m (fun x => k))
  (at level 100, m at next level, right associativity) : run_scope.
Notation "m ;;; k" := (bind m (fun _ => k))
  (at level 100, right associativity) : run_scope.
Local Open Scope run_scope.

Fixpoint for_each {A} (l : list A) (body : A -> M unit) : M unit :=
  match l with
  | [] => ret tt
  | x :: l' => body x ;;; for_each l' body
  end.

(** [logging]: a record is handed to the handlers; handler errors are
    swallowed by the logging module, so the call never raises. *)
Definition logger_info (fmt : string) (a : list pyval) : M unit :=
  emit (EvLog INFO fmt a).

Definition logger_error (fmt : string) (a : list pyval) : M unit :=
  emit (EvLog ERROR fmt a).

(** [v[k]] *)
Definition getitem (v : pyval) (k : string) : M pyval :=
  match v with
  | PyDict d =>
      match dict_get d k with
      | Some x => ret x
      | None => raise (Exn KeyError ("'" +:+ k +:+ "'"))
      end
  | _ => raise (Exn TypeError "object is not subscriptable")
  end.

(** ** pandas series operations used by the stages *)

(** [Series.rolling(window=window).mean()].  The constructor rejects a
    window that is not an integer 0 or greater (pandas' integer test
    excludes [bool]); [mean] needs a numeric column, returns an empty
    series for an empty one, and otherwise computes the window bounds in
    int64, which a window of [2**63] or more does not fit (the text of
    that error depends on the numpy version). *)
Definition series_rolling_mean (col : list cell) (window : pyval)
  : result (list fval) :=
  match window with
  | PyInt n =>
      if n <? 0
      then Raise (Exn ValueError "window must be an integer 0 or greater")
      else
        match numeric_values col with
        | Some [] => Ok []
        | Some xs =>
            if 2 ^ 63 <=? n
            then Raise (Exn OverflowError
                          "Python int too large to convert to C long")
            else Ok (roll_mean xs (Z.to_nat n) (Z.to_nat n))
        | None => Raise (Exn DataError "No numeric types to aggregate")
        end
  | _ => Raise (Exn ValueError "window must be an integer 0 or greater")
  end.

(** [a > b] on two series: the indexes must be identical (here: the same
    length), then the comparison is element-wise. *)
Definition series_gt (col : list cell) (other : list fval)
  : result (list bool) :=
  if negb (length col =? length other)%nat
  then Raise (Exn ValueError "Can only compare identically-labeled Series objects")
  else
    match numeric_values col with
    | Some xs => Ok (zip_with fgt xs other)
    | None =>
        Raise (Exn TypeError "'>' not supported between instances of 'str' and 'float'")
    end.

(** [astype(int)] on a bool series. *)
Definition astype_int (s : list bool) : list Z := Z.b2z <$> s.

(** Missing-value test of a series' element type. *)
Class HasNa (A : Type) : Type := isna : A -> bool.

#[global] Instance fval_has_na : HasNa fval :=
  fun x => match x with None => true | Some _ => false end.

(** An int64 series has no missing-value marker. *)
#[global] Instance int_has_na : HasNa Z := fun _ => false.

(** [Series.fillna(value)] *)
Definition fillna {A} `{HasNa A} (value : A) (s : list A) : list A :=
  (fun x => if isna x then value else x) <$> s.

(** [astype(int)] on a series that is already int64. *)
Definition astype_int_id (s : list Z) : list Z := s.

(** [repr] of a list of plain column names. *)
Definition repr_names (names : list string) : string :=
  "[" +:+ String.concat ", " ((fun n => "'" +:+ n +:+ "'") <$> names) +:+ "]".

(** ** The stages of run.py *)

Section Pipeline.

Variable w : World.

(** [time.time()] *)
Definition time_time : M Q :=
  fun s =>
    (Ok (clock w (clock_reads s)),
     {| out_file := out_file s; clock_reads := S (clock_reads s);
        write_count := write_count s; version_var := version_var s;
        trace := trace s |}).

(** [int((time.time() - start_time) * 1000)]: the difference and the
    product are doubles. *)
Definition elapsed_since (start_time : Q) : M Z :=
  now <- time_time ;;
  ret (Float64.py_int (Float64.mul64 (Float64.sub64 now start_time) 1000)).

Definition set_version (v : pyval) : M unit :=
  fun s =>
    (Ok tt,
     {| out_file := out_file s; clock_reads := clock_reads s;
        write_count := write_count s; version_var := v;
        trace := trace s |}).

Definition get_version : M pyval := fun s => (Ok (version_var s), s).

Definition load_config (config_path : string) : M pyval :=
  emit (EvIsFile config_path) ;;;
  match config_source w with
  | None =>
      raise (Exn FileNotFoundError
               ("Configuration file not found: " +:+ config_path))
  | Some loaded =>
      emit (EvYamlLoad config_path) ;;;
      config <- lift loaded ;;
      if negb (truthy config) || negb (isinstance_dict config)
      then raise (Exn ValueError "Invalid config file: empty or malformed")
      else
        for_each ["seed"; "window"; "version"]%string
          (fun key =>
             if negb (contains config key)
             then raise (Exn ValueError
                           ("Missing required config key: " +:+ key))
             else ret tt) ;;;
        seed <- getitem config "seed" ;;
        if negb (isinstance_int seed)
        then raise (Exn ValueError "seed must be an integer")
        else
          window <- getitem config "window" ;;
          if negb (isinstance_int window) || (int_of window <? 1)
          then raise (Exn ValueError "window must be a positive integer")
          else
            version <- getitem config "version" ;;
            if negb (isinstance_str version)
            then raise (Exn ValueError "version must be a string")
            else
              logger_info "Config loaded: seed=%d, window=%d, version=%s"
                [seed; window; version] ;;;
              ret config
  end.

(** [np.random.seed(seed)]: the legacy seeding accepts an index in
    [0, 2**32 - 1]. *)
Definition np_random_seed (seed : pyval) : M unit :=
  if isinstance_int seed
  then
    if (int_of seed <? 0) || (2 ^ 32 - 1 <? int_of seed)
    then raise (Exn ValueError "Seed must be between 0 and 2**32 - 1")
    else emit (EvSeed (int_of seed))
  else raise (Exn TypeError "Cannot cast scalar to an integer seed").

Definition load_data (input_path : string) : M DataFrame :=
  emit (EvIsFile input_path) ;;;
  match input_source w with
  | None =>
      raise (Exn FileNotFoundError ("Input file not found: " +:+ input_path))
  | Some read =>
      df <- try_except (emit (EvReadCsv input_path) ;;; lift read)
              (fun e =>
                 match exn_class_of e with
                 | EmptyDataError =>
                     raise (Exn ValueError "Input CSV file is empty")
                 | ParserError =>
                     raise (Exn ValueError "Invalid CSV format")
                 | _ => raise e
                 end) ;;
      if df_empty df
      then raise (Exn ValueError "CSV file contains no data rows")
      else
        match df_column (df_columns df) "close" with
        | None =>
            raise (Exn ValueError
                     ("Missing required column: close. Found: "
                        +:+ repr_names (fst <$> df_columns df)))
        | Some _ =>
            logger_info "Data loaded: %d rows"
              [PyInt (Z.of_nat (df_nrows df))] ;;;
            ret df
        end
  end.

(** [df['close']] *)
Definition df_close (df : DataFrame) : M (list cell) :=
  match df_column (df_columns df) "close" with
  | Some col => ret col
  | None => raise (Exn KeyError "'close'")
  end.

Definition compute_rolling_mean (df : DataFrame) (window : pyval)
  : M (list fval) :=
  col <- df_close df ;;
  rolling_mean <- lift (series_rolling_mean col window) ;;
  logger_info "Rolling mean calculated with window=%d" [window] ;;;
  ret rolling_mean.

Definition generate_signals (df : DataFrame) (rolling_mean : list fval)
  : M (list Z) :=
  col <- df_close df ;;
  above <- lift (series_gt col rolling_mean) ;;
  let signals := astype_int above in
  let signals := astype_int_id (fillna 0 signals) in
  logger_info "Signals generated" [] ;;;
  ret signals.

Definition calculate_metrics (signals : list Z) (total_rows : Z)
    (config : pyval) (latency_ms : Z) : M json_doc :=
  let signal_rate := signal_rate signals in
  version <- getitem config "version" ;;
  seed <- getitem config "seed" ;;
  let metrics :=
    [("version", version);
     ("rows_processed", PyInt total_rows);
     ("metric", PyStr "signal_rate");
     ("value", PyFloat signal_rate);
     ("latency_ms", PyInt latency_ms);
     ("seed", seed);
     ("status", PyStr "success")]%string in
  logger_info "Metrics: signal_rate=%.4f, rows_processed=%d"
    [PyFloat signal_rate; PyInt total_rows] ;;;
  ret metrics.

Definition write_output (data : json_doc) (output_path : string) : M unit :=
  fun s =>
    let s1 :=
      {| out_file := out_file s; clock_reads := clock_reads s;
         write_count := S (write_count s); version_var := version_var s;
         trace := trace s ++ [EvWrite output_path data] |} in
    let put f :=
      {| out_file := f; clock_reads := clock_reads s1;
         write_count := write_count s1; version_var := version_var s1;
         trace := trace s1 |} in
    match write_attempt w (write_count s) with
    | Written => (Ok tt, put (Document data))
    | OpenFails e => (Raise e, s1)
    | DumpFails e => (Raise e, put Partial)
    end.

(** [print(json.dumps(metrics, indent=2))] *)
Definition print_json (data : json_doc) : M unit :=
  match print_attempt w with
  | None => emit (EvPrint data)
  | Some e => raise e
  end.

(** The [try] block up to the success record: the record and the
    local [elapsed_ms]. *)
Definition compute_stages (start_time : Q) : M (json_doc * Z) :=
  config <- load_config (arg_config (args w)) ;;
  version <- getitem config "version" ;;
  set_version version ;;;
  seed <- getitem config "seed" ;;
  np_random_seed seed ;;;
  logger_info "Random seed set to %d" [seed] ;;;
  df <- load_data (arg_input (args w)) ;;
  window <- getitem config "window" ;;
  rolling_mean <- compute_rolling_mean df window ;;
  signals <- generate_signals df rolling_mean ;;
  elapsed_ms <- elapsed_since start_time ;;
  metrics <- calculate_metrics signals (Z.of_nat (df_nrows df)) config
               elapsed_ms ;;
  ret (metrics, elapsed_ms).

(** The rest of the [try] block. *)
Definition report_success (metrics : json_doc) (elapsed_ms : Z) : M Z :=
  write_output metrics (arg_output (args w)) ;;;
  logger_info "Metrics written to %s" [PyStr (arg_output (args w))] ;;;
  print_json metrics ;;;
  logger_info "Job completed successfully in %dms" [PyInt elapsed_ms] ;;;
  ret 0.

(** The [except Exception as e] block. *)
Definition report_failure (start_time : Q) (e : exn) : M Z :=
  elapsed_ms <- elapsed_since start_time ;;
  logger_error "Pipeline failed: %s" [PyStr (exn_str e)] ;;;
  version <- get_version ;;
  let error_out :=
    [("version", version);
     ("status", PyStr "error");
     ("error_message", PyStr (exn_str e))]%string in
  write_output error_out (arg_output (args w)) ;;;
  logger_info "Job failed after %dms" [PyInt elapsed_ms] ;;;
  ret 1.

Definition main : M Z :=
  start_time <- time_time ;;
  logger_info "Job started" [] ;;;
  set_version (PyStr "v1") ;;;
  try_except
    (computed <- compute_stages start_time ;;
     report_success (fst computed) (snd computed))
    (report_failure start_time).

(** One run from a fresh process. *)
Definition run : result Z * State := main (init_state w).

End Pipeline.

(** ** The window statistic as the design states it *)




(** *** The kernel, row by row *)

(** The locals of the kernel when the loop reaches row [k]. *)
Fixpoint state_upto (values : list fval) (window k : nat) : mean_state :=
  match k with
  | O => mean_setup values 0
  | S i => mean_step values window i (state_upto values window i)
  end.

Definition is_number (x : fval) : Z :=
  match x with
  | Some _ => 1
  | None => 0
  end.

(** The number of non-NaN cells in the rows [lo .. lo + n - 1]. *)
Fixpoint observations (values : list fval) (lo n : nat) : Z :=
  match n with
  | O => 0
  | S n' => is_number (value_at values lo) + observations values (S lo) n'
  end.

(** *** Prices that are small integers *)







(** [generate_signals] without the [fillna(0)] step. *)
Definition generate_signals_nofill (df : DataFrame) (rolling_mean : list fval)
  : M (list Z) :=
  col <- df_close df ;;
  above <- lift (series_gt col rolling_mean) ;;
  let signals := astype_int above in
  logger_info "Signals generated" [] ;;;
  ret signals.

(** ** The signal rate as the design states it *)

(** The arithmetic mean of an integer series, exactly. *)
Definition exact_mean (s : list Z) : Q :=
  (inject_Z (Zsum s) / inject_Z (Z.of_nat (length s)))%Q.

(** [q] rounded half-to-even to [ndigits] decimals, exactly. *)
Definition half_even_decimals (q : Q) (ndigits : nat) : Q :=
  (inject_Z (Float64.round_half_even (q * inject_Z (10 ^ Z.of_nat ndigits)))
   / inject_Z (10 ^ Z.of_nat ndigits))%Q.

(** The value as the design words it: the arithmetic mean of the signals
    rounded half-to-even to 4 decimals (held as the nearest double). *)
Definition rounded_exact_mean (s : list Z) : fval :=
  Some (Float64.literal (half_even_decimals (exact_mean s) 4)).

Definition is_signal (x : Z) : Prop := x = 0 \/ x = 1.

(** ** The output records *)

(** The success record: these keys in this order, [status] = "success". *)
Definition is_success_record (d : json_doc) : Prop :=
  fst <$> d
  = ["version"; "rows_processed"; "metric"; "value"; "latency_ms"; "seed";
     "status"]%string /\
  doc_get d "status" = Some (PyStr "success").

(** The error record: these keys in this order, [status] = "error". *)
Definition is_error_record (d : json_doc) : Prop :=
  fst <$> d = ["version"; "status"; "error_message"]%string /\
  doc_get d "status" = Some (PyStr "error").

(** The state in which the [try] block is entered. *)
Definition try_entry (w : World) : State :=
  {| out_file := initial_output w; clock_reads := 1%nat;
     write_count := 0%nat; version_var := PyStr "v1";
     trace := [EvLog INFO "Job started" []] |}.


Definition write_fails (o : write_outcome) (e : exn) : Prop :=
  o = OpenFails e \/ o = DumpFails e.

(** ** Relations between states and between runs *)

(** A relation between the state before and after an action that every
    action of a block respects. *)
Definition stable {A} (R : State -> State -> Prop) (m : M A) : Prop :=
  forall s : State, R s (snd (m s)).

(** The output path is not touched: no write attempt, same content. *)
Definition same_file (s s' : State) : Prop :=
  write_count s' = write_count s /\ out_file s' = out_file s.

(** No table has been read that was not read before. *)
Definition no_new_read (s s' : State) : Prop :=
  forall p : string, EvReadCsv p ∈ trace s' -> EvReadCsv p ∈ trace s.

(** What the stages before the report may do: everything but writing the
    output document or printing it. *)
Definition is_stage_event (ev : event) : Prop :=
  match ev with
  | EvWrite _ _ | EvPrint _ => False
  | _ => True
  end.

(** What the report of a result does: write, print, log. *)
Definition is_report_event (ev : event) : Prop :=
  match ev with
  | EvWrite _ _ | EvPrint _ | EvLog _ _ _ => True
  | _ => False
  end.

(** The trace grew by events of kind [P] only. *)
Definition appends (P : event -> Prop) (s s' : State) : Prop :=
  exists evs : list event, trace s' = trace s ++ evs /\ Forall P evs.



Definition file_get (f : file_state) (k : string) : option pyval :=
  match f with
  | Document d => doc_get d k
  | _ => None
  end.


(** States that agree on everything but the output path. *)
Definition agree_but_file (s1 s2 : State) : Prop :=
  clock_reads s1 = clock_reads s2 /\
  write_count s1 = write_count s2 /\
  version_var s1 = version_var s2 /\
  trace s1 = trace s2.




(** The documents [load_config] accepts. *)
Definition config_accepted (config : pyval) : bool :=
  match config with
  | PyDict d =>
      match dict_get d "seed", dict_get d "window", dict_get d "version" with
      | Some seed, Some window, Some version =>
          isinstance_int seed && isinstance_int window
          && (1 <=? int_of window) && isinstance_str version
      | _, _, _ => false
      end
  | _ => false
  end.

(** ** The scope of the model *)





(** ** Sample data *)

Definition idle_state : State :=
  {| out_file := NoFile; clock_reads := 0%nat; write_count := 0%nat;
     version_var := PyNone; trace := [] |}.

(** Four closes, as the doubles their decimal texts denote: 26.2, 26.0,
    25.8 and 25.9. *)
Definition drifting_prices : list fval :=
  [Some (Float64.literal (262 # 10)); Some (Float64.literal 26);
   Some (Float64.literal (258 # 10)); Some (Float64.literal (259 # 10))].

(** The signals of scenario 1. *)
Definition scenario_signals : list Z := [0; 0; 1; 1; 1].

(** One signal in 160 rows: the mean 0.00625 is a tie at the fifth
    decimal. *)
Definition tie_series : list Z := 1 :: replicate 159 0.

Definition sample_args : Args :=
  {| arg_input := "data.csv"; arg_config := "config.yaml";
     arg_output := "metrics.json"; arg_log_file := "run.log" |}.

Definition sample_config : pyval :=
  PyDict [(PyStr "seed", PyInt 42); (PyStr "window", PyInt 3);
          (PyStr "version", PyStr "v1")].

(** [window: true] *)
Definition bool_window_config : pyval :=
  PyDict [(PyStr "seed", PyInt 42); (PyStr "window", PyBool true);
          (PyStr "version", PyStr "v1")].

(** A window of [2**63] rows. *)
Definition huge_window_config : pyval :=
  PyDict [(PyStr "seed", PyInt 42); (PyStr "window", PyInt (2 ^ 63));
          (PyStr "version", PyStr "v1")].

(** A world with the given configuration document, the five-row table of
    scenario 1 and a file system that accepts every write. *)
Definition world_with_config (config : pyval) : World :=
  {| args := sample_args;
     config_source := Some (Ok config);
     input_source :=
       Some (Ok (price_table [Some 1; Some 2; Some 3; Some 4; Some 5]%Q));
     clock := fun n => (inject_Z (Z.of_nat n) * (1 # 4))%Q;
     write_attempt := fun _ => Written;
     print_attempt := None;
     initial_output := NoFile |}.

(** Scenario 1 on the closes 26.2, 26.0, 25.8, 25.9. *)
Definition world_drifting : World :=
  {| args := sample_args;
     config_source := Some (Ok sample_config);
     input_source := Some (Ok (price_table drifting_prices));
     clock := fun n => (inject_Z (Z.of_nat n) * (1 # 4))%Q;
     write_attempt := fun _ => Written;
     print_attempt := None;
     initial_output := NoFile |}.

Definition disk_full : exn :=
  Exn OSError "[Errno 28] No space left on device".

(** A run of scenario 1 on a nearly full disk: dumping the success record
    fails, the shorter error record fits. *)
Definition world_disk_full : World :=
  {| args := sample_args;
     config_source := Some (Ok sample_config);
     input_source :=
       Some (Ok (price_table [Some 1; Some 2; Some 3; Some 4; Some 5]%Q));
     clock := fun n => (inject_Z (Z.of_nat n) * (1 # 4))%Q;
     write_attempt :=
       fun n => match n with O => DumpFails disk_full | S _ => Written end;
     print_attempt := None;
     initial_output := NoFile |}.

(** Scenario 1 with an output path that cannot be opened for writing. *)
Definition world_unwritable : World :=
  {| args := sample_args;
     config_source := Some (Ok sample_config);
     input_source :=
       Some (Ok (price_table [Some 1; Some 2; Some 3; Some 4; Some 5]%Q));
     clock := fun n => (inject_Z (Z.of_nat n) * (1 # 4))%Q;
     write_attempt :=
       fun _ => OpenFails (Exn OSError "[Errno 13] Permission denied");
     print_attempt := None;
     initial_output := NoFile |}.

(** Scenario 1 run a second time, with a slower clock, to another
    output path that already holds the record of the first run. *)
Definition world_rerun : World :=
  {| args :=
       {| arg_input := "data.csv"; arg_config := "config.yaml";
          arg_output := "metrics-2.json"; arg_log_file := "run-2.log" |};
     config_source := Some (Ok sample_config);
     input_source :=
       Some (Ok (price_table [Some 1; Some 2; Some 3; Some 4; Some 5]%Q));
     clock := fun n => (inject_Z (Z.of_nat n) * (7 # 2))%Q;
     write_attempt := fun _ => Written;
     print_attempt := None;
     initial_output := out_file (snd (run (world_with_config sample_config))) |}.

(** ** Further relations, records and sample data *)

(** The local [version] is not assigned. *)
Definition same_version (s s' : State) : Prop :=
  version_var s' = version_var s.

Definition error_record (version : pyval) (message : string) : json_doc :=
  [("version", version); ("status", PyStr "error");
   ("error_message", PyStr message)]%string.

(** A document with a version of its own but no window. *)
Definition config_without_window : pyval :=
  PyDict [(PyStr "seed", PyInt 42); (PyStr "version", PyStr "v7")].

(** An accepted configuration, and no input file. *)
Definition world_missing_input : World :=
  {| args := sample_args;
     config_source :=
       Some (Ok (PyDict [(PyStr "seed", PyInt 42); (PyStr "window", PyInt 3);
                         (PyStr "version", PyStr "v7")]));
     input_source := None;
     clock := fun n => (inject_Z (Z.of_nat n) * (1 # 4))%Q;
     write_attempt := fun _ => Written;
     print_attempt := None;
     initial_output := NoFile |}.

Definition seed_message : string := "Seed must be between 0 and 2**32 - 1".

(** A CSV file without any content. *)
Definition world_empty_csv : World :=
  {| args := sample_args;
     config_source := Some (Ok sample_config);
     input_source :=
       Some (Raise (Exn EmptyDataError "No columns to parse from file"));
     clock := fun n => (inject_Z (Z.of_nat n) * (1 # 4))%Q;
     write_attempt := fun _ => Written;
     print_attempt := None;
     initial_output := NoFile |}.



(** Equality of float cells as numbers: NaN only matches NaN here. *)
Definition same_number (a b : fval) : Prop :=
  match a, b with
  | Some x, Some y => (x == y)%Q
  | None, None => True
  | _, _ => False
  end.

Definition success_record (version : pyval) (rows : Z) (value : fval)
    (latency : Z) (seed : pyval) : json_doc :=
  [("version", version);
   ("rows_processed", PyInt rows);
   ("metric", PyStr "signal_rate");
   ("value", PyFloat value);
   ("latency_ms", PyInt latency);
   ("seed", seed);
   ("status", PyStr "success")]%string.

(** Scenario 1 run again over the success record of an earlier run, with
    an output path that can no longer be opened. *)
Definition world_stale_output : World :=
  {| args := sample_args;
     config_source := Some (Ok sample_config);
     input_source :=
       Some (Ok (price_table [Some 1; Some 2; Some 3; Some 4; Some 5]%Q));
     clock := fun n => (inject_Z (Z.of_nat n) * (1 # 4))%Q;
     write_attempt :=
       fun _ => OpenFails (Exn OSError "[Errno 13] Permission denied");
     print_attempt := None;
     initial_output :=
       Document (success_record (PyStr "v1") 5 (Some (Float64.literal (6 # 10)))
                   250 (PyInt 42)) |}.

(** * Properties *)

(** ** binary64 rounding *)

Section Float64Facts.

Import Float64.
Local Open Scope Q_scope.

Lemma round_half_even_cases (q : Q) :
  exists f : Z,
    f = Qfloor q /\
    inject_Z f <= q < inject_Z f + 1 /\
    ((q - inject_Z f < 1 # 2 /\ round_half_even q = f) \/
     (1 # 2 < q - inject_Z f /\ round_half_even q = (f + 1)%Z) \/
     (q - inject_Z f == 1 # 2 /\ Z.even (round_half_even q) = true /\
      (round_half_even q = f \/ round_half_even q = (f + 1)%Z))).
Proof.
  exists (Qfloor q). unfold round_half_even.
  pose proof (Qfloor_le q) as Hlo.
  pose proof (Qlt_floor q) as Hhi.
  rewrite inject_Z_plus in Hhi. change (inject_Z 1) with 1 in Hhi.
  split; [reflexivity|]. split; [by split|].
  destruct (q - inject_Z (Qfloor q) ?= 1 # 2) eqn:Hc.
  - apply Qeq_alt in Hc. right. right. split; [exact Hc|].
    destruct (Z.even (Qfloor q)) eqn:He.
    + split; [exact He | by left].
    + split; [|by right]. rewrite Z.even_add, He. reflexivity.
  - apply Qlt_alt in Hc. left. by split.
  - apply Qgt_alt in Hc. right. left. by split.
Qed.

Lemma round_half_even_near (q : Q) :
  q - (1 # 2) <= inject_Z (round_half_even q) <= q + (1 # 2).
Proof.
  destruct (round_half_even_cases q) as (f & _ & [Hlo Hhi] & Hcases).
  destruct Hcases as [[Hc ->]|[[Hc ->]|(Hc & _ & [-> | ->])]];
    rewrite ?inject_Z_plus; change (inject_Z 1) with 1;
    generalize dependent (inject_Z f); intros F; intros; split; lra.
Qed.

Lemma round_half_even_tie (q : Q) :
  Qabs (inject_Z (round_half_even q) - q) == 1 # 2 ->
  Z.even (round_half_even q) = true.
Proof.
  destruct (round_half_even_cases q) as (f & _ & [Hlo Hhi] & Hcases).
  destruct Hcases as [[Hc ->]|[[Hc ->]|(Hc & He & _)]]; [| |by intros _].
  - intros Habs. exfalso. revert Habs. 
    generalize dependent (inject_Z f); intros F; intros.
    rewrite Qabs_neg in Habs by lra. lra.
  - rewrite inject_Z_plus. change (inject_Z 1) with 1.
    intros Habs. exfalso. revert Habs.
    generalize dependent (inject_Z f); intros F; intros.
    rewrite Qabs_pos in Habs by lra. lra.
Qed.

Lemma pow2_pos (e : Z) : 0 < 2 ^ e.
Proof. apply Qpower_0_lt. reflexivity. Qed.

Lemma pow2_add (a b : Z) : 2 ^ (a + b) == 2 ^ a * 2 ^ b.
Proof. apply Qpower_plus. discriminate. Qed.

Lemma pow2_inject (k : Z) : (0 <= k)%Z -> inject_Z (2 ^ k) == 2 ^ k.
Proof. intros Hk. apply (Zpower_Qpower 2 k Hk). Qed.

Lemma pow2_le (a b : Z) : (a <= b)%Z -> 2 ^ a <= 2 ^ b.
Proof. intros H. apply Qpower_le_compat_l; [exact H | discriminate]. Qed.

Lemma pow2_lt (a b : Z) : (a < b)%Z -> 2 ^ a < 2 ^ b.
Proof. intros H. apply Qpower_lt_compat_l; [exact H | reflexivity]. Qed.


(** The integer part of the binary logarithm of a positive integer, in
    rational form. *)
Lemma log2_bounds (n : Z) :
  (0 < n)%Z ->
  2 ^ Z.log2 n <= inject_Z n /\ inject_Z n < 2 ^ (Z.log2 n + 1).
Proof.
  intros Hn. destruct (Z.log2_spec n Hn) as [Hlo Hhi].
  pose proof (Z.log2_nonneg n) as Hnn.
  rewrite <- !pow2_inject by lia. split.
  - rewrite <- Zle_Qle. exact Hlo.
  - rewrite <- Zlt_Qlt. exact Hhi.
Qed.

Lemma ilog2_spec (q : Q) :
  0 < q -> 2 ^ ilog2 q <= q /\ q < 2 ^ (ilog2 q + 1).
Proof.
  intros Hq. unfold ilog2.
  destruct q as [a b]. simpl Qnum. simpl Qden.
  assert (Ha : (0 < a)%Z).
  { unfold Qlt in Hq. simpl in Hq. lia. }
  destruct (log2_bounds a Ha) as [Halo Hahi].
  destruct (log2_bounds (Z.pos b) ltac:(lia)) as [Hblo Hbhi].
  set (la := Z.log2 a) in *. set (lb := Z.log2 (Z.pos b)) in *.
  assert (Hq' : (a # b) * inject_Z (Z.pos b) == inject_Z a).
  { rewrite (Qmake_Qdiv a b). field. discriminate. }
  assert (Hbpos : 0 < inject_Z (Z.pos b)) by reflexivity.
  pose proof (pow2_pos lb) as Hlbpos.
  pose proof (pow2_pos (la - lb)) as Hlpos.
  assert (Hsplit1 : 2 ^ (la + 1) == 2 ^ (la - lb + 1) * 2 ^ lb).
  { rewrite <- pow2_add. apply Qpower_comp; [reflexivity | lia]. }
  assert (Hsplit2 : 2 ^ la == 2 ^ (la - lb - 1) * 2 ^ (lb + 1)).
  { rewrite <- pow2_add. apply Qpower_comp; [reflexivity | lia]. }
  assert (Hup : a # b < 2 ^ (la - lb + 1)).
  { pose proof (pow2_pos (la - lb + 1)).
    generalize dependent (inject_Z a). generalize dependent (inject_Z (Z.pos b)).
    generalize dependent (2 ^ (la - lb + 1)). generalize dependent (2 ^ lb).
    generalize dependent (2 ^ (la + 1)). intros. nra. }
  assert (Hdown : 2 ^ (la - lb - 1) <= a # b).
  { pose proof (pow2_pos (la - lb - 1)).
    generalize dependent (inject_Z a). generalize dependent (inject_Z (Z.pos b)).
    generalize dependent (2 ^ (la - lb - 1)). generalize dependent (2 ^ (lb + 1)).
    generalize dependent (2 ^ la). intros. nra. }
  destruct (Qle_bool (2 ^ (la - lb)) (a # b)) eqn:Hle.
  - apply Qle_bool_iff in Hle. split; [exact Hle | exact Hup].
  - split; [exact Hdown|].
    replace (la - lb - 1 + 1)%Z with (la - lb)%Z by lia.
    apply Qnot_le_lt. intros Hcontra.
    apply Qle_bool_iff in Hcontra. congruence.
Qed.

Lemma Qabs_nonneg_eq (q : Q) : 0 <= q -> Qabs q = q.
Proof.
  destruct q as [a b]. unfold Qle, Qabs. simpl. intros H.
  f_equal. apply Z.abs_eq. lia.
Qed.

Lemma round64_zero (q : Q) : q == 0 -> round64 q = 0.
Proof.
  intros H. unfold round64.
  apply Qeq_bool_iff in H. rewrite H. reflexivity.
Qed.

Lemma round64_pos (q : Q) :
  0 < q ->
  round64 q
  == inject_Z (round_half_even (q / 2 ^ (ilog2 q - 52))) * 2 ^ (ilog2 q - 52).
Proof.
  intros H. unfold round64.
  destruct (Qeq_bool q 0) eqn:Hz.
  - apply Qeq_bool_iff in Hz. lra.
  - rewrite Qred_correct, Qabs_nonneg_eq by lra. reflexivity.
Qed.

(** The significand of a positive number lies in [2^52, 2^53). *)
Lemma significand_bounds (q : Q) :
  0 < q ->
  2 ^ 52 <= q / 2 ^ (ilog2 q - 52) /\ q / 2 ^ (ilog2 q - 52) < 2 ^ 53.
Proof.
  intros Hq. destruct (ilog2_spec q Hq) as [Hlo Hhi].
  pose proof (pow2_pos (ilog2 q - 52)) as He.
  assert (H1 : 2 ^ ilog2 q == 2 ^ 52 * 2 ^ (ilog2 q - 52)).
  { rewrite <- pow2_add. apply Qpower_comp; [reflexivity | lia]. }
  assert (H2 : 2 ^ (ilog2 q + 1) == 2 ^ 53 * 2 ^ (ilog2 q - 52)).
  { rewrite <- pow2_add. apply Qpower_comp; [reflexivity | lia]. }
  rewrite H1 in Hlo. rewrite H2 in Hhi.
  split.
  - apply Qle_shift_div_l; assumption.
  - apply Qlt_shift_div_r; assumption.
Qed.

Lemma round64_nonneg (q : Q) : 0 <= q -> 0 <= round64 q.
Proof.
  intros Hq. destruct (Qlt_le_dec 0 q) as [Hpos|Hle].
  - rewrite (round64_pos q Hpos).
    destruct (significand_bounds q Hpos) as [Hlo _].
    pose proof (round_half_even_near (q / 2 ^ (ilog2 q - 52))) as [Hn _].
    pose proof (pow2_pos (ilog2 q - 52)) as He.
    apply Qmult_le_0_compat; [|lra].
    assert (H52 : 1 <= 2 ^ 52) by (apply Qpower_1_le; [discriminate | lia]).
    lra.
  - rewrite (round64_zero q) by lra. lra.
Qed.

Lemma round64_le_1 (q : Q) : 0 <= q -> q <= 1 -> round64 q <= 1.
Proof.
  intros Hq0 Hq1. destruct (Qlt_le_dec 0 q) as [Hpos|Hle].
  2: { rewrite (round64_zero q) by lra. lra. }
  rewrite (round64_pos q Hpos).
  destruct (significand_bounds q Hpos) as [Hlo Hhi].
  destruct (ilog2_spec q Hpos) as [Hllo Hlhi].
  pose proof (round_half_even_near (q / 2 ^ (ilog2 q - 52))) as [Hn1 Hn2].
  pose proof (pow2_pos (ilog2 q - 52)) as He.
  set (e := (ilog2 q - 52)%Z) in *.
  set (R := round_half_even (q / 2 ^ e)) in *.
  assert (Hl : (ilog2 q <= 0)%Z).
  { destruct (Z_le_gt_dec (ilog2 q) 0%Z) as [?|Hgt]; [assumption|].
    pose proof (pow2_lt 0 (ilog2 q) ltac:(lia)) as Hlt.
    change (2 ^ 0) with 1 in Hlt. lra. }
  destruct (Z.eq_dec (ilog2 q) 0%Z) as [Hl0|Hlneg].
  - (* q == 1 *)
    rewrite Hl0 in Hllo. change (2 ^ 0) with 1 in Hllo.
    assert (Hq : q == 1) by lra.
    assert (He' : e = (-52)%Z) by (unfold e; lia).
    assert (HR : R = (2 ^ 52)%Z).
    { assert (Hx : q / 2 ^ e == inject_Z (2 ^ 52)).
      { rewrite He', Hq. reflexivity. }
      rewrite Hx in Hn1, Hn2.
      assert (H1 : inject_Z R < inject_Z (2 ^ 52 + 1)).
      { rewrite inject_Z_plus. change (inject_Z 1) with 1. lra. }
      assert (H2 : inject_Z (2 ^ 52) < inject_Z (R + 1)).
      { rewrite inject_Z_plus. change (inject_Z 1) with 1. lra. }
      rewrite <- Zlt_Qlt in H1, H2. lia. }
    rewrite HR, He'. apply Qle_lteq. right. reflexivity.
  - (* q < 1 *)
    assert (HR : (R <= 2 ^ 53)%Z).
    { assert (H53 : 2 ^ 53 == inject_Z (2 ^ 53)) by reflexivity.
      assert (H1 : inject_Z R < inject_Z (2 ^ 53 + 1)).
      { rewrite inject_Z_plus. change (inject_Z 1) with 1. lra. }
      rewrite <- Zlt_Qlt in H1. lia. }
    rewrite Zle_Qle in HR.
    assert (Hcap : 2 ^ 53 * 2 ^ e <= 1).
    { rewrite <- pow2_add. change 1 with (2 ^ 0). apply pow2_le. unfold e. lia. }
    change (inject_Z (2 ^ 53)) with (2 ^ 53) in HR.
    generalize dependent (inject_Z R). generalize dependent (2 ^ e).
    generalize dependent (2 ^ 53). intros. nra.
Qed.

(** Rounding to binary64 moves a positive number by at most half a unit
    in the last place: a relative error of [2^-53]. *)
Lemma round64_error (q : Q) :
  0 < q ->
  q - q * (1 # 2 ^ 53) <= round64 q /\ round64 q <= q + q * (1 # 2 ^ 53).
Proof.
  intros Hpos. rewrite (round64_pos q Hpos).
  destruct (significand_bounds q Hpos) as [Hlo _].
  pose proof (round_half_even_near (q / 2 ^ (ilog2 q - 52))) as [Hn1 Hn2].
  pose proof (pow2_pos (ilog2 q - 52)) as He.
  assert (Hx : q / 2 ^ (ilog2 q - 52) * 2 ^ (ilog2 q - 52) == q).
  { field. lra. }
  change (2 ^ 52) with (4503599627370496 # 1) in Hlo.
  change (1 # 2 ^ 53) with (1 # 9007199254740992).
  generalize dependent (inject_Z (round_half_even (q / 2 ^ (ilog2 q - 52)))).
  generalize dependent (q / 2 ^ (ilog2 q - 52)).
  generalize dependent (2 ^ (ilog2 q - 52)).
  intros E He x Hlo Hx R Hn1 Hn2. split; nra.
Qed.

(** *** Rounding over the whole range *)















End Float64Facts.
(** ** Window statistic *)

Lemma numeric_values_CNum (xs : list fval) :
  numeric_values (CNum <$> xs) = Some xs.
Proof.
  induction xs as [|x xs IH]; [done|].
  change (numeric_values (CNum <$> x :: xs))
    with (cons x <$> numeric_values (CNum <$> xs)).
  by rewrite IH.
Qed.

Lemma df_close_price_table (closes : list fval) (s : State) :
  df_close (price_table closes) s = (Ok (CNum <$> closes), s).
Proof. reflexivity. Qed.

Lemma length_numeric_values (col : list cell) (xs : list fval) :
  numeric_values col = Some xs -> length xs = length col.
Proof.
  revert xs. induction col as [|[x|t] col IH]; intros xs H; simpl in H.
  - by simplify_eq.
  - destruct (numeric_values col) as [ys|]; simplify_eq/=.
    f_equal. by apply IH.
  - done.
Qed.

(** *** The loop over the rows *)

Lemma length_roll_mean_loop (xs : list fval) (window : nat) (minp : Z)
    (rows : list nat) (st : mean_state) :
  length (roll_mean_loop xs window minp rows st) = length rows.
Proof.
  revert st. induction rows as [|i rows IH]; intros st; [done|].
  simpl. by rewrite IH.
Qed.

Lemma length_roll_mean (xs : list fval) (window minp : nat) :
  length (roll_mean xs window minp) = length xs.
Proof. unfold roll_mean. by rewrite length_roll_mean_loop, length_seq. Qed.

Lemma lookup_roll_mean_loop (xs : list fval) (window : nat) (minp : Z)
    (k n j : nat) :
  (j < n)%nat ->
  roll_mean_loop xs window minp (seq k n) (state_upto xs window k) !! j
  = Some (calc_mean minp (state_upto xs window (S (k + j)))).
Proof.
  revert k j. induction n as [|n IH]; intros k j Hj; [lia|].
  cbn [seq roll_mean_loop].
  change (mean_step xs window k (state_upto xs window k))
    with (state_upto xs window (S k)).
  destruct j as [|j].
  - cbn [lookup list_lookup]. by rewrite Nat.add_0_r.
  - cbn [lookup list_lookup].
    change (roll_mean_loop xs window minp (seq (S k) n)
              (state_upto xs window (S k)) !! j
            = Some (calc_mean minp (state_upto xs window (S (k + S j))))).
    rewrite IH by lia. by replace (S k + j)%nat with (k + S j)%nat by lia.
Qed.

(** The value of row [i] is computed from the locals after row [i]. *)
Lemma lookup_roll_mean (xs : list fval) (window minp i : nat) :
  (i < length xs)%nat ->
  roll_mean xs window minp !! i
  = Some (calc_mean (Z.of_nat minp) (state_upto xs window (S i))).
Proof.
  intros Hi. unfold roll_mean.
  change (mean_setup xs 0) with (state_upto xs window 0).
  by rewrite lookup_roll_mean_loop.
Qed.

(** The four shapes of a turn of the loop, for a window of at least 1. *)
Lemma mean_step_first (xs : list fval) (window : nat) (st : mean_state) :
  (1 <= window)%nat ->
  mean_step xs window 0 st = add_mean (value_at xs 0) (mean_setup xs 0).
Proof.
  intros Hw. unfold mean_step, window_bounds. cbn [fst snd Nat.eqb orb].
  by replace (0 + 1 - window)%nat with 0%nat by lia.
Qed.

Lemma mean_step_one (xs : list fval) (i : nat) (st : mean_state) :
  mean_step xs 1 i st = add_mean (value_at xs i) (mean_setup xs i).
Proof.
  unfold mean_step, window_bounds. cbn [fst snd].
  replace (i + 1 - 1)%nat with i by lia.
  rewrite Nat.leb_refl, orb_true_r.
  by replace (i + 1 - i)%nat with 1%nat by lia.
Qed.

Lemma mean_step_grow (xs : list fval) (window i : nat) (st : mean_state) :
  (2 <= window)%nat -> (S i < window)%nat ->
  mean_step xs window (S i) st = add_mean (value_at xs (S i)) st.
Proof.
  intros Hw Hi. unfold mean_step, window_bounds. cbn [fst snd Nat.eqb orb].
  replace (S i + 1 - window)%nat with 0%nat by lia.
  cbn [Nat.leb].
  replace (S i - 1 + 1 - window)%nat with 0%nat by lia.
  replace (S i + 1 - (S i - 1 + 1))%nat with 1%nat by lia.
  by replace (S i - 1 + 1)%nat with (S i) by lia.
Qed.

Lemma mean_step_slide (xs : list fval) (window i : nat) (st : mean_state) :
  (2 <= window)%nat -> (window <= S i)%nat ->
  mean_step xs window (S i) st
  = add_mean (value_at xs (S i))
      (remove_mean (value_at xs (S i - window)) st).
Proof.
  intros Hw Hi. unfold mean_step, window_bounds. cbn [fst snd Nat.eqb orb].
  destruct (Nat.leb_spec (S i) (S i + 1 - window)) as [?|_]; [lia|].
  replace (S i - 1 + 1 - window)%nat with (S i - window)%nat by lia.
  replace (S i + 1 - window - (S i - window))%nat with 1%nat by lia.
  replace (S i + 1 - (S i - 1 + 1))%nat with 1%nat by lia.
  by replace (S i - 1 + 1)%nat with (S i) by lia.
Qed.

(** *** The number of observations *)

Lemma nobs_add_mean (v : fval) (st : mean_state) :
  nobs (add_mean v st) = nobs st + is_number v.
Proof. destruct v; simpl; lia. Qed.

Lemma nobs_remove_mean (v : fval) (st : mean_state) :
  nobs (remove_mean v st) = nobs st - is_number v.
Proof. destruct v; simpl; lia. Qed.

Lemma observations_snoc (xs : list fval) (lo n : nat) :
  observations xs lo (S n)
  = observations xs lo n + is_number (value_at xs (lo + n)).
Proof.
  revert lo. induction n as [|n IH]; intros lo.
  - simpl. rewrite Nat.add_0_r. lia.
  - change (observations xs lo (S (S n)))
      with (is_number (value_at xs lo) + observations xs (S lo) (S n)).
    rewrite IH. cbn [observations].
    replace (S lo + n)%nat with (lo + S n)%nat by lia. lia.
Qed.

Lemma is_number_bounds (v : fval) : 0 <= is_number v <= 1.
Proof. destruct v; simpl; lia. Qed.

Lemma observations_bounds (xs : list fval) (lo n : nat) :
  0 <= observations xs lo n <= Z.of_nat n.
Proof.
  revert lo. induction n as [|n IH]; intros lo; [simpl; lia|].
  cbn [observations].
  pose proof (is_number_bounds (value_at xs lo)). specialize (IH (S lo)).
  lia.
Qed.

Lemma observations_NaN (xs : list fval) (lo n j : nat) :
  (lo <= j < lo + n)%nat -> value_at xs j = NaN ->
  observations xs lo n < Z.of_nat n.
Proof.
  revert lo. induction n as [|n IH]; intros lo Hj Hnan; [lia|].
  cbn [observations].
  destruct (decide (j = lo)) as [->|Hne].
  - rewrite Hnan. pose proof (observations_bounds xs (S lo) n).
    simpl. lia.
  - pose proof (is_number_bounds (value_at xs lo)).
    specialize (IH (S lo) ltac:(lia) Hnan). lia.
Qed.

(** After row [i] the kernel has counted the non-NaN cells of the rows of
    the window of row [i]. *)
Lemma nobs_state_upto (xs : list fval) (window i : nat) :
  (1 <= window)%nat ->
  nobs (state_upto xs window (S i))
  = observations xs (i + 1 - window) (Nat.min (i + 1) window).
Proof.
  intros Hw. induction i as [|i IH].
  - cbn [state_upto]. rewrite mean_step_first by done.
    rewrite nobs_add_mean.
    replace (0 + 1 - window)%nat with 0%nat by lia.
    replace (Nat.min (0 + 1) window) with 1%nat by lia.
    simpl. lia.
  - change (state_upto xs window (S (S i)))
      with (mean_step xs window (S i) (state_upto xs window (S i))).
    destruct (decide (window = 1%nat)) as [->|Hw2].
    { rewrite mean_step_one, nobs_add_mean.
      replace (S i + 1 - 1)%nat with (S i) by lia.
      replace (Nat.min (S i + 1) 1) with 1%nat by lia.
      simpl. lia. }
    destruct (decide (S i < window)%nat) as [Hgrow|Hslide].
    + rewrite mean_step_grow by lia. rewrite nobs_add_mean, IH.
      replace (i + 1 - window)%nat with 0%nat by lia.
      replace (S i + 1 - window)%nat with 0%nat by lia.
      replace (Nat.min (i + 1) window) with (S i) by lia.
      replace (Nat.min (S i + 1) window) with (S (S i)) by lia.
      by rewrite (observations_snoc xs 0 (S i)).
    + rewrite mean_step_slide by lia.
      rewrite nobs_add_mean, nobs_remove_mean, IH.
      replace (Nat.min (i + 1) window) with window by lia.
      replace (Nat.min (S i + 1) window) with window by lia.
      replace (i + 1 - window)%nat with (S i - window)%nat by lia.
      replace (S i + 1 - window)%nat with (S (S i - window)) by lia.
      destruct window as [|n]; [lia|].
      rewrite (observations_snoc xs (S (S i - S n)) n).
      cbn [observations].
      replace (S (S i - S n) + n)%nat with (S i) by lia. lia.
Qed.

Lemma calc_mean_short (minp : Z) (st : mean_state) :
  nobs st < minp -> calc_mean minp st = NaN.
Proof.
  intros H. unfold calc_mean.
  destruct (Z.leb_spec minp (nobs st)) as [?|_]; [lia|]. reflexivity.
Qed.

(** The rows before the first full window. *)
Lemma roll_mean_warmup (xs : list fval) (n i : nat) :
  (i < length xs)%nat -> (i + 1 < n)%nat ->
  roll_mean xs n n !! i = Some NaN.
Proof.
  intros Hi Hrow. rewrite lookup_roll_mean by done. f_equal.
  apply calc_mean_short. rewrite nobs_state_upto by lia.
  pose proof (observations_bounds xs (i + 1 - n) (Nat.min (i + 1) n)). lia.
Qed.

Lemma value_at_lookup (xs : list fval) (j : nat) (x : fval) :
  xs !! j = Some x -> value_at xs j = x.
Proof. intros H. unfold value_at. by rewrite H. Qed.

(** The rows whose window holds a NaN cell. *)
Lemma roll_mean_after_NaN (xs : list fval) (n i j : nat) :
  xs !! j = Some NaN -> (j <= i < j + n)%nat -> (i < length xs)%nat ->
  roll_mean xs n n !! i = Some NaN.
Proof.
  intros Hj Hi Hlen. rewrite lookup_roll_mean by done. f_equal.
  apply calc_mean_short. rewrite nobs_state_upto by lia.
  pose proof (observations_NaN xs (i + 1 - n) (Nat.min (i + 1) n) j
                ltac:(lia) (value_at_lookup xs j NaN Hj)).
  lia.
Qed.

(** With window 1 the value of a row is the cell itself. *)
Lemma roll_mean_one (xs : list fval) (i : nat) (c : fval) :
  xs !! i = Some c -> roll_mean xs 1 1 !! i = Some c.
Proof.
  intros Hc. rewrite lookup_roll_mean by (by eapply lookup_lt_Some).
  f_equal. cbn [state_upto]. rewrite mean_step_one.
  rewrite (value_at_lookup xs i c Hc).
  destruct c as [q|]; [|reflexivity].
  unfold calc_mean, add_mean, mean_setup.
  cbn [nobs num_consecutive_same_value prev_value].
  rewrite (value_at_lookup xs i (Some q) Hc).
  change (Z.of_nat 1 <=? 0 + 1) with true. change (0 <? 0 + 1) with true.
  cbn [andb].
  by destruct (Float64.feq (Some q) (Some q)).
Qed.

(** *** Prices that are small integers

    When every price is an integer between 0 and [B] and [window * B]
    does not exceed [2^53], every sum the kernel forms is an integer it
    can hold: the running sum is exact and the compensations stay 0. *)























Lemma compute_rolling_mean_ok (df : DataFrame) (col : list cell)
    (closes : list fval) (window : Z) (s : State) :
  df_column (df_columns df) "close" = Some col ->
  numeric_values col = Some closes ->
  0 <= window < 2 ^ 63 ->
  compute_rolling_mean df (PyInt window) s
  = (Ok (roll_mean closes (Z.to_nat window) (Z.to_nat window)),
     with_trace s (EvLog INFO "Rolling mean calculated with window=%d"
                     [PyInt window])).
Proof.
  intros Hcol Hnum Hw.
  unfold compute_rolling_mean, bind, df_close, lift, series_rolling_mean.
  rewrite Hcol. simpl.
  destruct (Z.ltb_spec window 0) as [?|_]; [lia|].
  rewrite Hnum.
  destruct closes as [|c closes]; [reflexivity|].
  destruct (Z.leb_spec (2 ^ 63) window) as [?|_]; [lia|].
  reflexivity.
Qed.




(** ** Signal generation *)

(** The fill step finds nothing to fill in an int64 series. *)
Lemma fillna_int (value : Z) (s : list Z) : fillna value s = s.
Proof.
  unfold fillna. induction s as [|x s IH]; [done|].
  rewrite fmap_cons, IH. reflexivity.
Qed.

Lemma generate_signals_ok (df : DataFrame) (col : list cell)
    (closes rm : list fval) (s : State) :
  df_column (df_columns df) "close" = Some col ->
  numeric_values col = Some closes ->
  length rm = length closes ->
  generate_signals df rm s
  = (Ok (Z.b2z <$> zip_with fgt closes rm),
     with_trace s (EvLog INFO "Signals generated" [])).
Proof.
  intros Hcol Hnum Hlen.
  unfold generate_signals, bind, df_close, lift, series_gt.
  rewrite Hcol. simpl.
  rewrite <- (length_numeric_values col closes Hnum), <- Hlen.
  rewrite Nat.eqb_refl. simpl. rewrite Hnum.
  unfold astype_int_id. rewrite fillna_int. reflexivity.
Qed.

Lemma lookup_signals (closes rm : list fval) (i : nat) (c m : fval) :
  closes !! i = Some c -> rm !! i = Some m ->
  (Z.b2z <$> zip_with fgt closes rm) !! i = Some (Z.b2z (fgt c m)).
Proof.
  intros Hc Hm. rewrite list_lookup_fmap, lookup_zip_with, Hc. simpl.
  rewrite Hm. reflexivity.
Qed.

Lemma fgt_true (c m : fval) :
  fgt c m = true <->
  exists cq mq : Q, c = Some cq /\ m = Some mq /\ (mq < cq)%Q.
Proof.
  unfold fgt. destruct c as [cq|], m as [mq|];
    try (split; [done | intros (?&?&?&?&?); done]).
  destruct (Qlt_le_dec mq cq) as [Hlt|Hle].
  - split; [|done]. intros _. by exists cq, mq.
  - split; [done|]. intros (cq'&mq'&?&?&Hlt). simplify_eq.
    exfalso. exact (Qle_not_lt _ _ Hle Hlt).
Qed.

(** C3: on an aligned window series generation succeeds, and the signal
    of a row is 1 exactly when the statistic is present and close is
    strictly above it, 0 in every other case. *)
Theorem generate_signals_spec (df : DataFrame) (col : list cell)
    (closes rm : list fval) (s : State) :
  df_column (df_columns df) "close" = Some col ->
  numeric_values col = Some closes ->
  length rm = length closes ->
  exists sig : list Z,
    fst (generate_signals df rm s) = Ok sig /\
    length sig = length closes /\
    forall (i : nat) (c m : fval),
      closes !! i = Some c -> rm !! i = Some m ->
      let above :=
        exists cq mq : Q, c = Some cq /\ m = Some mq /\ (mq < cq)%Q in
      (above /\ sig !! i = Some 1) \/ (~ above /\ sig !! i = Some 0).
Proof.
  intros Hcol Hnum Hlen.
  exists (Z.b2z <$> zip_with fgt closes rm).
  rewrite (generate_signals_ok df col closes rm s) by done.
  split; [reflexivity|]. split.
  { rewrite length_fmap, length_zip_with. lia. }
  intros i c m Hc Hm above.
  rewrite (lookup_signals closes rm i c m) by done.
  destruct (fgt c m) eqn:Hgt.
  - left. split; [by apply fgt_true | reflexivity].
  - right. split; [|reflexivity].
    intros Habove. apply fgt_true in Habove. congruence.
Qed.

Lemma generate_signals_spec_witness :
  exists sig : list Z,
    fst (generate_signals
           (price_table [Some 1; Some 2; Some 3]%Q)
           [NaN; Some (3 # 2); Some 3]%Q idle_state) = Ok sig /\
    length sig = 3%nat /\
    forall (i : nat) (c m : fval),
      [Some 1; Some 2; Some 3]%Q !! i = Some c ->
      [NaN; Some (3 # 2); Some 3]%Q !! i = Some m ->
      let above :=
        exists cq mq : Q, c = Some cq /\ m = Some mq /\ (mq < cq)%Q in
      (above /\ sig !! i = Some 1) \/ (~ above /\ sig !! i = Some 0).
Proof.
  apply (generate_signals_spec
           (price_table [Some 1; Some 2; Some 3]%Q)
           (CNum <$> [Some 1; Some 2; Some 3]%Q)
           [Some 1; Some 2; Some 3]%Q
           [NaN; Some (3 # 2); Some 3]%Q idle_state).
  - reflexivity.
  - reflexivity.
  - reflexivity.
Defined.

(** C4: for a window the statistic can be computed for (from 1 to below
    [2**63]) the signal series is aligned with the table and with the
    window series, and every row before the first full window has
    signal 0. *)
Theorem signals_aligned (df : DataFrame) (col : list cell)
    (closes : list fval) (window : Z) (s : State) :
  df_column (df_columns df) "close" = Some col ->
  numeric_values col = Some closes ->
  length col = df_nrows df ->
  1 <= window < 2 ^ 63 ->
  exists (rm : list fval) (sig : list Z) (s1 s2 : State),
    compute_rolling_mean df (PyInt window) s = (Ok rm, s1) /\
    generate_signals df rm s1 = (Ok sig, s2) /\
    length rm = df_nrows df /\
    length sig = df_nrows df /\
    forall i : nat, (i < df_nrows df)%nat ->
      Z.of_nat i < window - 1 -> sig !! i = Some 0.
Proof.
  intros Hcol Hnum Hrows Hw.
  pose proof (length_numeric_values col closes Hnum) as Hlen.
  pose proof (length_roll_mean closes (Z.to_nat window) (Z.to_nat window))
    as Hrm.
  exists (roll_mean closes (Z.to_nat window) (Z.to_nat window)).
  exists (Z.b2z <$> zip_with fgt closes
            (roll_mean closes (Z.to_nat window) (Z.to_nat window))).
  eexists _, _.
  split; [apply (compute_rolling_mean_ok df col closes); (done || lia)|].
  split; [by apply (generate_signals_ok df col closes)|].
  split; [lia|].
  split; [rewrite length_fmap, length_zip_with; lia|].
  intros i Hi Hrow.
  destruct (lookup_lt_is_Some_2 closes i ltac:(lia)) as [c Hc].
  rewrite (lookup_signals closes _ i c NaN Hc).
  - unfold fgt. by destruct c.
  - apply roll_mean_warmup; lia.
Qed.

Lemma signals_aligned_witness :
  exists (rm : list fval) (sig : list Z) (s1 s2 : State),
    compute_rolling_mean
      (price_table [Some 1; Some 2; Some 3; Some 4; Some 5]%Q) (PyInt 3)
      idle_state = (Ok rm, s1) /\
    generate_signals
      (price_table [Some 1; Some 2; Some 3; Some 4; Some 5]%Q) rm s1
    = (Ok sig, s2) /\
    length rm = 5%nat /\
    length sig = 5%nat /\
    forall i : nat, (i < 5)%nat -> Z.of_nat i < 3 - 1 -> sig !! i = Some 0.
Proof.
  apply (signals_aligned
           (price_table [Some 1; Some 2; Some 3; Some 4; Some 5]%Q)
           (CNum <$> [Some 1; Some 2; Some 3; Some 4; Some 5]%Q)
           [Some 1; Some 2; Some 3; Some 4; Some 5]%Q 3 idle_state).
  - reflexivity.
  - reflexivity.
  - reflexivity.
  - lia.
Defined.

(** A window of [2**63] rows passes validation, and the run fails in
    the statistic: there is no signal series, the exit code is 1. *)
Lemma huge_window_has_no_signals :
  let w := world_with_config huge_window_config in
  fst (load_config w "config.yaml" (init_state w)) = Ok huge_window_config /\
  (exists msg : string,
      fst (compute_rolling_mean
             (price_table [Some 1; Some 2; Some 3; Some 4; Some 5]%Q)
             (PyInt (2 ^ 63)) idle_state)
      = Raise (Exn OverflowError msg)) /\
  ~ In (EvLog INFO "Signals generated" []) (trace (snd (run w))) /\
  fst (run w) = Ok 1 /\
  file_get (out_file (snd (run w))) "status" = Some (PyStr "error").
Proof.
  intros w.
  split; [vm_compute; reflexivity|].
  split; [eexists; vm_compute; reflexivity|].
  split.
  { intros Hin.
    let t := eval vm_compute in (trace (snd (run w))) in
    assert (Htr : trace (snd (run w)) = t) by (vm_compute; reflexivity).
    rewrite Htr in Hin. simpl in Hin.
    repeat (destruct Hin as [Hin|Hin]; [discriminate Hin|]). exact Hin. }
  split; vm_compute; reflexivity.
Qed.

(** Scenario 1 of the design: closes 1..5 with window 3. *)
Example scenario_window_3 :
  let df := price_table [Some 1; Some 2; Some 3; Some 4; Some 5]%Q in
  fst (compute_rolling_mean df (PyInt 3) idle_state)
  = Ok [NaN; NaN; Some 2; Some 3; Some 4]%Q /\
  fst (generate_signals df [NaN; NaN; Some 2; Some 3; Some 4]%Q idle_state)
  = Ok [0; 0; 1; 1; 1].
Proof. split; vm_compute; reflexivity. Qed.

(** Scenario 4 of the design: a window longer than the table. *)
Example scenario_window_10 :
  let df := price_table [Some 1; Some 2; Some 3; Some 4; Some 5]%Q in
  fst (compute_rolling_mean df (PyInt 10) idle_state)
  = Ok [NaN; NaN; NaN; NaN; NaN] /\
  fst (generate_signals df [NaN; NaN; NaN; NaN; NaN] idle_state)
  = Ok [0; 0; 0; 0; 0].
Proof. split; vm_compute; reflexivity. Qed.

(** C10: the comparison alone already gives 0 on every row whose
    statistic is absent, and [generate_signals] is equal, on every input
    and in every state, to the function without the [fillna(0)] step. *)
Theorem fillna_is_redundant :
  (forall (col : list cell) (rm : list fval) (above : list bool) (i : nat),
      series_gt col rm = Ok above -> rm !! i = Some NaN ->
      astype_int above !! i = Some 0) /\
  (forall (df : DataFrame) (rm : list fval) (s : State),
      generate_signals df rm s = generate_signals_nofill df rm s).
Proof.
  split.
  - intros col rm above i Hgt Hnan. unfold series_gt in Hgt.
    destruct (length col =? length rm)%nat eqn:Hlen; [|done].
    apply Nat.eqb_eq in Hlen. simpl in Hgt.
    destruct (numeric_values col) as [xs|] eqn:Hnum; [|done].
    injection Hgt as <-.
    pose proof (length_numeric_values col xs Hnum) as Hxs.
    pose proof (lookup_lt_Some _ _ _ Hnan) as Hi.
    destruct (lookup_lt_is_Some_2 xs i ltac:(lia)) as [c Hc].
    unfold astype_int. rewrite (lookup_signals xs rm i c NaN Hc Hnan).
    unfold fgt. by destruct c.
  - intros df rm s.
    unfold generate_signals, generate_signals_nofill, astype_int_id, bind.
    destruct (df_close df s) as [[col|e] s1]; [|reflexivity].
    unfold lift. destruct (series_gt col rm) as [above|e]; [|reflexivity].
    by rewrite fillna_int.
Qed.

(** ** Signal rate *)

Lemma Zsum_signals (s : list Z) :
  Forall is_signal s -> 0 <= Zsum s <= Z.of_nat (length s).
Proof.
  induction 1 as [|x s Hx _ IH]; simpl; [lia|].
  destruct Hx as [-> | ->]; lia.
Qed.

Lemma exact_mean_unit (s : list Z) :
  s <> [] -> Forall is_signal s ->
  (0 <= exact_mean s)%Q /\ (exact_mean s <= 1)%Q.
Proof.
  intros Hne Hsig. pose proof (Zsum_signals s Hsig) as [Hlo Hhi].
  assert (Hlen : 0 < Z.of_nat (length s)) by (destruct s; [done | simpl; lia]).
  unfold exact_mean.
  assert (Hn : (0 < inject_Z (Z.of_nat (length s)))%Q).
  { change 0%Q with (inject_Z 0). by rewrite <- Zlt_Qlt. }
  split.
  - apply Qle_shift_div_l; [exact Hn|].
    rewrite Qmult_0_l. change 0%Q with (inject_Z 0). by rewrite <- Zle_Qle.
  - apply Qle_shift_div_r; [exact Hn|].
    rewrite Qmult_1_l. by rewrite <- Zle_Qle.
Qed.

Lemma series_mean_nonempty (s : list Z) :
  s <> [] -> series_mean s = Some (Float64.round64 (exact_mean s)).
Proof. destruct s; [done | reflexivity]. Qed.

(** Rounding a number of the unit interval to 4 decimals. *)
Lemma round_decimals_unit (m : Q) :
  (0 <= m)%Q -> (m <= 1)%Q ->
  0 <= Float64.round_half_even (m * 10000) <= 10000.
Proof.
  intros H0 H1.
  pose proof (round_half_even_near (m * 10000)) as [Hn1 Hn2].
  assert (Hlo : (inject_Z (-1) < inject_Z (Float64.round_half_even (m * 10000)))%Q).
  { change (inject_Z (-1)) with (-1 # 1)%Q. lra. }
  assert (Hhi : (inject_Z (Float64.round_half_even (m * 10000)) < inject_Z 10001)%Q).
  { change (inject_Z 10001) with (10001 # 1)%Q. lra. }
  rewrite <- Zlt_Qlt in Hlo, Hhi. lia.
Qed.

Lemma round_half_even_unique (z : Q) (N : Z) :
  (inject_Z N - (1 # 2) < z)%Q -> (z < inject_Z N + (1 # 2))%Q ->
  Float64.round_half_even z = N.
Proof.
  intros Hlo Hhi.
  pose proof (round_half_even_near z) as [Hn1 Hn2].
  assert (H1 : (inject_Z (Float64.round_half_even z) < inject_Z (N + 1))%Q).
  { rewrite inject_Z_plus. change (inject_Z 1) with 1%Q. lra. }
  assert (H2 : (inject_Z N < inject_Z (Float64.round_half_even z + 1))%Q).
  { rewrite inject_Z_plus. change (inject_Z 1) with 1%Q. lra. }
  rewrite <- Zlt_Qlt in H1, H2. lia.
Qed.

(** Between two integers read as rationals there is a gap of one. *)
Lemma inject_Z_lt_succ (a b : Z) :
  (inject_Z a < inject_Z b)%Q -> (inject_Z a + 1 <= inject_Z b)%Q.
Proof.
  intros H. rewrite <- Zlt_Qlt in H.
  change 1%Q with (inject_Z 1). rewrite <- inject_Z_plus, <- Zle_Qle. lia.
Qed.

Lemma rounding_off_tie (k n : Z) (m : Q) :
  0 < n -> n <= 2 ^ 38 -> 0 <= k <= n ->
  let E := (inject_Z k / inject_Z n)%Q in
  (E - E * (1 # 2 ^ 53) <= m)%Q -> (m <= E + E * (1 # 2 ^ 53))%Q ->
  ~ (E * 10000 - inject_Z (Qfloor (E * 10000)) == 1 # 2)%Q ->
  Float64.round_half_even (m * 10000) = Float64.round_half_even (E * 10000).
Proof.
  intros Hn Hn38 Hk E Hm1 Hm2 Htie.
  assert (HNq : (0 < inject_Z n)%Q).
  { change 0%Q with (inject_Z 0). by rewrite <- Zlt_Qlt. }
  assert (HNq38 : (inject_Z n <= 274877906944)%Q).
  { change 274877906944%Q with (inject_Z (2 ^ 38)). by rewrite <- Zle_Qle. }
  assert (HK0 : (0 <= inject_Z k)%Q).
  { change 0%Q with (inject_Z 0). rewrite <- Zle_Qle. lia. }
  assert (HKN : (inject_Z k <= inject_Z n)%Q).
  { rewrite <- Zle_Qle. lia. }
  assert (HE : (E * inject_Z n == inject_Z k)%Q).
  { unfold E. field. lra. }
  clearbody E.
  change (1 # 2 ^ 53)%Q with (1 # 9007199254740992)%Q in Hm1, Hm2.
  destruct (round_half_even_cases (E * 10000))
    as (f & Hf & [Hf1 Hf2] & [[Hc ->]|[[Hc ->]|(Hc & _)]]).
  - (* rounds down: 2n (E*10000 - f) is an integer below n *)
    assert (Hgap : (inject_Z (20000 * k - 2 * f * n) + 1 <= inject_Z n)%Q).
    { apply inject_Z_lt_succ.
      unfold Z.sub. rewrite inject_Z_plus, inject_Z_opp, !inject_Z_mult.
      change (inject_Z 20000) with 20000%Q. change (inject_Z 2) with 2%Q.
      generalize dependent (inject_Z f). generalize dependent (inject_Z k).
      generalize dependent (inject_Z n).
      intros. nra. }
    unfold Z.sub in Hgap.
    rewrite inject_Z_plus, inject_Z_opp, !inject_Z_mult in Hgap.
    change (inject_Z 20000) with 20000%Q in Hgap.
    change (inject_Z 2) with 2%Q in Hgap.
    apply round_half_even_unique;
      generalize dependent (inject_Z f); generalize dependent (inject_Z k);
      generalize dependent (inject_Z n); intros; nra.
  - (* rounds up: 2n (E*10000 - f) is an integer above n *)
    assert (Hgap : (inject_Z n + 1 <= inject_Z (20000 * k - 2 * f * n))%Q).
    { apply inject_Z_lt_succ.
      unfold Z.sub. rewrite inject_Z_plus, inject_Z_opp, !inject_Z_mult.
      change (inject_Z 20000) with 20000%Q. change (inject_Z 2) with 2%Q.
      generalize dependent (inject_Z f). generalize dependent (inject_Z k).
      generalize dependent (inject_Z n).
      intros. nra. }
    unfold Z.sub in Hgap.
    rewrite inject_Z_plus, inject_Z_opp, !inject_Z_mult in Hgap.
    change (inject_Z 20000) with 20000%Q in Hgap.
    change (inject_Z 2) with 2%Q in Hgap.
    apply round_half_even_unique; rewrite inject_Z_plus;
      change (inject_Z 1) with 1%Q;
      generalize dependent (inject_Z f); generalize dependent (inject_Z k);
      generalize dependent (inject_Z n); intros; nra.
  - exfalso. apply Htie. rewrite <- Hf. exact Hc.
Qed.

(** Away from a tie at the fifth decimal, and for up to [2^38] rows,
    the rounding of the binary64 mean is the rounding of the exact mean. *)
Lemma signal_rate_off_tie (signals : list Z) :
  signals <> [] -> Forall is_signal signals ->
  Z.of_nat (length signals) <= 2 ^ 38 ->
  ~ (exact_mean signals * 10000
     - inject_Z (Qfloor (exact_mean signals * 10000)) == 1 # 2)%Q ->
  signal_rate signals = rounded_exact_mean signals.
Proof.
  intros Hne Hsig Hlen Htie.
  pose proof (Zsum_signals signals Hsig) as Hk.
  assert (Hn : 0 < Z.of_nat (length signals)) by (destruct signals; [done | simpl; lia]).
  destruct (exact_mean_unit signals Hne Hsig) as [He0 He1].
  assert (Herr : (exact_mean signals - exact_mean signals * (1 # 2 ^ 53)
                  <= Float64.round64 (exact_mean signals)
                  /\ Float64.round64 (exact_mean signals)
                     <= exact_mean signals
                        + exact_mean signals * (1 # 2 ^ 53))%Q).
  { destruct (Qlt_le_dec 0 (exact_mean signals)) as [Hpos|Hle].
    - apply round64_error. exact Hpos.
    - rewrite (round64_zero (exact_mean signals)) by lra.
      assert (Hz : (exact_mean signals == 0)%Q) by lra.
      rewrite Hz. split; lra. }
  destruct Herr as [Herr1 Herr2].
  pose proof (rounding_off_tie (Zsum signals) (Z.of_nat (length signals))
                (Float64.round64 (exact_mean signals)) Hn Hlen Hk
                Herr1 Herr2 Htie) as Hround.
  unfold signal_rate, rounded_exact_mean, half_even_decimals, Float64.literal.
  rewrite series_mean_nonempty by done. unfold Float64.py_round.
  change (inject_Z (10 ^ Z.of_nat 4)) with 10000%Q.
  fold (exact_mean signals). by rewrite Hround.
Qed.

Lemma calculate_metrics_ok (signals : list Z) (total_rows latency_ms : Z)
    (d : list (pyval * pyval)) (version seed : pyval) (s : State) :
  dict_get d "version" = Some version ->
  dict_get d "seed" = Some seed ->
  fst (calculate_metrics signals total_rows (PyDict d) latency_ms s)
  = Ok [("version", version);
        ("rows_processed", PyInt total_rows);
        ("metric", PyStr "signal_rate");
        ("value", PyFloat (signal_rate signals));
        ("latency_ms", PyInt latency_ms);
        ("seed", seed);
        ("status", PyStr "success")]%string.
Proof.
  intros Hv Hs. unfold calculate_metrics, bind, getitem.
  rewrite Hv. simpl. rewrite Hs. reflexivity.
Qed.

(** C5, as the code has it: the value is a function of the signal series
    alone; it is the binary64 mean [m] of the signals (within a relative
    [2^-53] of the arithmetic mean) rounded half-to-even, on the exact
    value of [m], to a 4-decimal [k / 10^4] and held as the nearest double;
    it lies in [0, 1]; it is the half-to-even rounding of the arithmetic
    mean itself whenever that mean is not a tie at the fifth decimal (for
    up to [2^38] rows); and [0,0,1,1,1] gives the double of 0.6. *)
Theorem signal_rate_rounding :
  (forall (signals : list Z) (total_rows latency_ms : Z)
          (d : list (pyval * pyval)) (version seed : pyval) (s : State),
      signals <> [] -> Forall is_signal signals ->
      dict_get d "version" = Some version ->
      dict_get d "seed" = Some seed ->
      exists (metrics : json_doc) (m v : Q) (k : Z),
        fst (calculate_metrics signals total_rows (PyDict d) latency_ms s)
        = Ok metrics /\
        doc_get metrics "value" = Some (PyFloat (signal_rate signals)) /\
        signal_rate signals = Some v /\
        series_mean signals = Some m /\
        (exact_mean signals - exact_mean signals * (1 # 2 ^ 53) <= m)%Q /\
        (m <= exact_mean signals + exact_mean signals * (1 # 2 ^ 53))%Q /\
        (m * 10000 - (1 # 2) <= inject_Z k)%Q /\
        (inject_Z k <= m * 10000 + (1 # 2))%Q /\
        (Qabs (inject_Z k - m * 10000) == 1 # 2 -> Z.even k = true)%Q /\
        v = Float64.literal (inject_Z k / 10000) /\
        (0 <= v)%Q /\ (v <= 1)%Q /\
        (Z.of_nat (length signals) <= 2 ^ 38 ->
         ~ (exact_mean signals * 10000
            - inject_Z (Qfloor (exact_mean signals * 10000)) == 1 # 2)%Q ->
         signal_rate signals = rounded_exact_mean signals)) /\
  signal_rate [0; 0; 1; 1; 1] = Some (Float64.literal (6 # 10)).
Proof.
  split; [|reflexivity].
  intros signals total_rows latency_ms d version seed s Hne Hsig Hv Hs.
  destruct (exact_mean_unit signals Hne Hsig) as [He0 He1].
  set (m := Float64.round64 (exact_mean signals)).
  set (k := Float64.round_half_even (m * 10000)).
  assert (Hm0 : (0 <= m)%Q) by (by apply round64_nonneg).
  assert (Hm1 : (m <= 1)%Q) by (by apply round64_le_1).
  pose proof (round_decimals_unit m Hm0 Hm1) as [Hk0 Hk1]. fold k in Hk0, Hk1.
  pose proof (round_half_even_near (m * 10000)) as [Hn1 Hn2].
  fold k in Hn1, Hn2.
  assert (Hd0 : (0 <= inject_Z k / 10000)%Q).
  { apply Qle_shift_div_l; [reflexivity|]. rewrite Qmult_0_l.
    change 0%Q with (inject_Z 0). by rewrite <- Zle_Qle. }
  assert (Hd1 : (inject_Z k / 10000 <= 1)%Q).
  { apply Qle_shift_div_r; [reflexivity|]. rewrite Qmult_1_l.
    change 10000%Q with (inject_Z 10000). by rewrite <- Zle_Qle. }
  exists [("version", version); ("rows_processed", PyInt total_rows);
          ("metric", PyStr "signal_rate");
          ("value", PyFloat (signal_rate signals));
          ("latency_ms", PyInt latency_ms); ("seed", seed);
          ("status", PyStr "success")]%string.
  exists m, (Float64.round64 (inject_Z k / 10000)), k.
  split; [by apply calculate_metrics_ok|].
  split; [reflexivity|].
  split.
  { unfold signal_rate. rewrite series_mean_nonempty by done. reflexivity. }
  split; [by apply series_mean_nonempty|].
  assert (Herr : (exact_mean signals - exact_mean signals * (1 # 2 ^ 53) <= m
                  /\ m <= exact_mean signals
                          + exact_mean signals * (1 # 2 ^ 53))%Q).
  { destruct (Qlt_le_dec 0 (exact_mean signals)) as [Hpos|Hle].
    - apply round64_error. exact Hpos.
    - unfold m. rewrite (round64_zero (exact_mean signals)) by lra.
      assert (Hz : (exact_mean signals == 0)%Q) by lra.
      rewrite Hz. split; lra. }
  destruct Herr as [Herr1 Herr2].
  split; [exact Herr1|]. split; [exact Herr2|].
  split; [exact Hn1|]. split; [exact Hn2|].
  split; [apply round_half_even_tie|].
  split; [reflexivity|].
  split; [by apply round64_nonneg|]. split; [by apply round64_le_1|].
  intros Hlen Htie. by apply signal_rate_off_tie.
Qed.

Lemma signal_rate_rounding_witness :
  exists (metrics : json_doc) (m v : Q) (k : Z),
    fst (calculate_metrics scenario_signals 5
           (PyDict [(PyStr "seed", PyInt 42); (PyStr "window", PyInt 3);
                    (PyStr "version", PyStr "v1")]) 250 idle_state)
    = Ok metrics /\
    doc_get metrics "value" = Some (PyFloat (signal_rate scenario_signals)) /\
    signal_rate scenario_signals = Some v /\
    series_mean scenario_signals = Some m /\
    (exact_mean scenario_signals
     - exact_mean scenario_signals * (1 # 2 ^ 53) <= m)%Q /\
    (m <= exact_mean scenario_signals
          + exact_mean scenario_signals * (1 # 2 ^ 53))%Q /\
    (m * 10000 - (1 # 2) <= inject_Z k)%Q /\
    (inject_Z k <= m * 10000 + (1 # 2))%Q /\
    (Qabs (inject_Z k - m * 10000) == 1 # 2 -> Z.even k = true)%Q /\
    v = Float64.literal (inject_Z k / 10000) /\
    (0 <= v)%Q /\ (v <= 1)%Q /\
    (Z.of_nat (length scenario_signals) <= 2 ^ 38 ->
     ~ (exact_mean scenario_signals * 10000
        - inject_Z (Qfloor (exact_mean scenario_signals * 10000)) == 1 # 2)%Q ->
     signal_rate scenario_signals = rounded_exact_mean scenario_signals).
Proof.
  apply (proj1 signal_rate_rounding scenario_signals 5 250
           [(PyStr "seed", PyInt 42); (PyStr "window", PyInt 3);
            (PyStr "version", PyStr "v1")]
           (PyStr "v1") (PyInt 42) idle_state).
  - discriminate.
  - unfold scenario_signals.
    repeat (apply Forall_cons; split; [(left; reflexivity) || (right; reflexivity)|]).
    apply Forall_nil. exact I.
  - reflexivity.
  - reflexivity.
Defined.

(** C5 as worded fails on a tie: with one signal in 160 rows the
    arithmetic mean is 0.00625, whose half-to-even rounding is 0.0062,
    but the double nearest 0.00625 lies above it and the record holds
    0.0063. *)
Lemma signal_rate_tie_counterexample :
  tie_series <> [] /\ Forall is_signal tie_series /\
  (exact_mean tie_series == 625 # 100000)%Q /\
  (half_even_decimals (exact_mean tie_series) 4 == 62 # 10000)%Q /\
  exists (metrics : json_doc) (v c : Q),
    fst (calculate_metrics tie_series 160 sample_config 0 idle_state)
    = Ok metrics /\
    doc_get metrics "value" = Some (PyFloat (Some v)) /\
    v = Float64.literal (63 # 10000) /\
    rounded_exact_mean tie_series = Some c /\
    c = Float64.literal (62 # 10000) /\
    ~ (v == c)%Q.
Proof.
  split; [discriminate|].
  split.
  { apply Forall_cons. split; [by right|].
    apply Forall_replicate. by left. }
  split; [vm_compute; reflexivity|].
  split; [vm_compute; reflexivity|].
  eexists _, _, _.
  split; [vm_compute; reflexivity|].
  split; [vm_compute; reflexivity|].
  split; [vm_compute; reflexivity|].
  split; [vm_compute; reflexivity|].
  split; [vm_compute; reflexivity|].
  vm_compute. discriminate.
Qed.

(** ** Reasoning about runs *)

Lemma bind_Ok {A B} (m : M A) (k : A -> M B) (s s1 : State) (a : A) :
  m s = (Ok a, s1) -> bind m k s = k a s1.
Proof. intros H. unfold bind. by rewrite H. Qed.

Lemma bind_Raise {A B} (m : M A) (k : A -> M B) (s s1 : State) (e : exn) :
  m s = (Raise e, s1) -> bind m k s = (Raise e, s1).
Proof. intros H. unfold bind. by rewrite H. Qed.

Lemma bind_inv_Ok {A B} (m : M A) (k : A -> M B) (s s2 : State) (b : B) :
  bind m k s = (Ok b, s2) ->
  exists (a : A) (s1 : State), m s = (Ok a, s1) /\ k a s1 = (Ok b, s2).
Proof.
  unfold bind. destruct (m s) as [[a|e] s1]; intros H; [|done].
  by exists a, s1.
Qed.

Section Stable.

Context (R : State -> State -> Prop) `{!PreOrder R}.

Lemma stable_ret {A} (a : A) : stable R (ret a).
Proof. intros s. simpl. reflexivity. Qed.

Lemma stable_raise {A} (e : exn) : stable R (@raise A e).
Proof. intros s. simpl. reflexivity. Qed.

Lemma stable_lift {A} (r : result A) : stable R (lift r).
Proof. intros s. simpl. reflexivity. Qed.

Lemma stable_bind {A B} (m : M A) (k : A -> M B) :
  stable R m -> (forall a, stable R (k a)) -> stable R (bind m k).
Proof.
  intros Hm Hk s. unfold bind. specialize (Hm s).
  destruct (m s) as [[a|e] s1]; simpl in *; [|done].
  etrans; [exact Hm | apply Hk].
Qed.

Lemma stable_try_except {A} (body : M A) (handler : exn -> M A) :
  stable R body -> (forall e, stable R (handler e)) ->
  stable R (try_except body handler).
Proof.
  intros Hb Hh s. unfold try_except. specialize (Hb s).
  destruct (body s) as [[a|e] s1]; simpl in *; [done|].
  etrans; [exact Hb | apply Hh].
Qed.

Lemma stable_for_each {A} (l : list A) (body : A -> M unit) :
  (forall a, stable R (body a)) -> stable R (for_each l body).
Proof.
  intros Hb. induction l as [|x l IH]; simpl.
  - apply stable_ret.
  - apply stable_bind; [apply Hb | intros _; exact IH].
Qed.

Lemma stable_getitem (v : pyval) (k : string) : stable R (getitem v k).
Proof.
  unfold getitem. destruct v; try apply stable_raise.
  destruct (dict_get d k); [apply stable_ret | apply stable_raise].
Qed.

End Stable.

#[global] Instance same_file_preorder : PreOrder same_file.
Proof.
  split.
  - intros s. by split.
  - intros s1 s2 s3 [H1 H2] [H3 H4]. split; congruence.
Qed.

#[global] Instance no_new_read_preorder : PreOrder no_new_read.
Proof.
  split.
  - intros s p H. exact H.
  - intros s1 s2 s3 H1 H2 p H. apply H1, H2, H.
Qed.

Lemma same_file_emit (ev : event) : stable same_file (emit ev).
Proof. intros s. by split. Qed.

Lemma no_new_read_emit (ev : event) :
  (forall p, ev <> EvReadCsv p) -> stable no_new_read (emit ev).
Proof.
  intros Hev s p. simpl. rewrite elem_of_app, list_elem_of_singleton.
  intros [H|H]; [exact H|]. by destruct (Hev p).
Qed.

#[global] Instance appends_preorder (P : event -> Prop) : PreOrder (appends P).
Proof.
  split.
  - intros s. exists []. by rewrite app_nil_r.
  - intros s1 s2 s3 (evs1 & H1 & HP1) (evs2 & H2 & HP2).
    exists (evs1 ++ evs2). split.
    + by rewrite H2, H1, app_assoc.
    + by apply Forall_app.
Qed.

Lemma appends_emit (P : event -> Prop) (ev : event) :
  P ev -> stable (appends P) (emit ev).
Proof.
  intros HP s. exists [ev]. split; [reflexivity|].
  apply Forall_cons. split; [exact HP | apply Forall_nil; exact I].
Qed.

Lemma appends_same_trace {A} (P : event -> Prop) (m : M A) :
  (forall s, trace (snd (m s)) = trace s) -> stable (appends P) m.
Proof. intros H s. exists []. by rewrite H, app_nil_r. Qed.

Ltac stable_step :=
  match goal with
  | |- stable _ (bind _ _) =>
      apply stable_bind; try typeclasses eauto; [|intros ?]
  | |- stable _ (ret _) => apply stable_ret; typeclasses eauto
  | |- stable _ (raise _) => apply stable_raise; typeclasses eauto
  | |- stable _ (lift _) => apply stable_lift; typeclasses eauto
  | |- stable _ (getitem _ _) => apply stable_getitem; typeclasses eauto
  | |- stable _ (for_each _ _) =>
      apply stable_for_each; try typeclasses eauto; intros ?
  | |- stable _ (try_except _ _) =>
      apply stable_try_except; try typeclasses eauto; [|intros ?]
  | |- stable same_file (emit _) => apply same_file_emit
  | |- stable same_file (logger_info _ _) => apply same_file_emit
  | |- stable same_file (logger_error _ _) => apply same_file_emit
  | |- stable no_new_read (emit _) =>
      apply no_new_read_emit; intros ?; discriminate
  | |- stable no_new_read (logger_info _ _) =>
      apply no_new_read_emit; intros ?; discriminate
  | |- stable no_new_read (logger_error _ _) =>
      apply no_new_read_emit; intros ?; discriminate
  | |- stable (appends _) (emit _) => apply appends_emit; exact I
  | |- stable (appends _) (logger_info _ _) => apply appends_emit; exact I
  | |- stable (appends _) (logger_error _ _) => apply appends_emit; exact I
  | |- stable _ (if ?b then _ else _) => destruct b
  | |- stable _ (match ?x with _ => _ end) => destruct x
  end.

Ltac stable_auto := repeat stable_step.

Section StagesKeepFile.

Variable w : World.

Lemma time_time_same_file : stable same_file (time_time w).
Proof. intros s. by split. Qed.

Lemma set_version_same_file (v : pyval) : stable same_file (set_version v).
Proof. intros s. by split. Qed.

Lemma get_version_same_file : stable same_file get_version.
Proof. intros s. by split. Qed.

Lemma elapsed_since_same_file (t : Q) :
  stable same_file (elapsed_since w t).
Proof.
  unfold elapsed_since. stable_step; [apply time_time_same_file|].
  stable_step.
Qed.

Lemma load_config_same_file (p : string) :
  stable same_file (load_config w p).
Proof. unfold load_config. stable_auto. Qed.

Lemma np_random_seed_same_file (v : pyval) :
  stable same_file (np_random_seed v).
Proof. unfold np_random_seed. stable_auto. Qed.

Lemma load_data_same_file (p : string) :
  stable same_file (load_data w p).
Proof. unfold load_data. stable_auto. Qed.

Lemma compute_rolling_mean_same_file (df : DataFrame) (window : pyval) :
  stable same_file (compute_rolling_mean df window).
Proof. unfold compute_rolling_mean, df_close. stable_auto. Qed.

Lemma generate_signals_same_file (df : DataFrame) (rm : list fval) :
  stable same_file (generate_signals df rm).
Proof. unfold generate_signals, df_close. stable_auto. Qed.

Lemma calculate_metrics_same_file (signals : list Z) (rows : Z)
    (config : pyval) (latency : Z) :
  stable same_file (calculate_metrics signals rows config latency).
Proof. unfold calculate_metrics. stable_auto. Qed.

(** Up to the success record the run does not touch the output path. *)
Lemma compute_stages_same_file (t : Q) :
  stable same_file (compute_stages w t).
Proof.
  unfold compute_stages.
  repeat first
    [ apply load_config_same_file
    | apply set_version_same_file
    | apply np_random_seed_same_file
    | apply load_data_same_file
    | apply compute_rolling_mean_same_file
    | apply generate_signals_same_file
    | apply elapsed_since_same_file
    | apply calculate_metrics_same_file
    | stable_step ].
Qed.

(** Validating the configuration reads no table. *)
Lemma load_config_no_new_read (p : string) :
  stable no_new_read (load_config w p).
Proof. unfold load_config. stable_auto. Qed.

End StagesKeepFile.

(** ** Configuration validation *)

Lemma load_config_ok (w : World) (path : string) (d : list (pyval * pyval))
    (seed window : pyval) (v : string) (s : State) :
  config_source w = Some (Ok (PyDict d)) ->
  dict_get d "seed" = Some seed -> isinstance_int seed = true ->
  dict_get d "window" = Some window -> isinstance_int window = true ->
  1 <= int_of window ->
  dict_get d "version" = Some (PyStr v) ->
  fst (load_config w path s) = Ok (PyDict d).
Proof.
  intros Hsrc Hseed Hiseed Hwin Hiwin Hpos Hver.
  unfold load_config. rewrite Hsrc.
  assert (Hd : truthy (PyDict d) = true) by (by destruct d).
  unfold bind, emit, lift, for_each, contains, getitem, ret.
  simpl isinstance_dict. rewrite Hd. simpl.
  rewrite Hseed, Hwin, Hver. simpl. rewrite Hiseed, Hiwin. simpl.
  destruct (Z.ltb_spec (int_of window) 1) as [?|_]; [lia|].
  reflexivity.
Qed.

(** C9: booleans pass the integer checks: every boolean is an [int]
    instance, [True] is not below 1, and a document whose seed is a
    boolean and whose window is [true] is accepted as it is. *)
Theorem load_config_accepts_booleans :
  (forall b : bool, isinstance_int (PyBool b) = true) /\
  (negb (isinstance_int (PyBool true)) || (int_of (PyBool true) <? 1)
   = false) /\
  (forall (w : World) (path : string) (d : list (pyval * pyval))
          (b : bool) (v : string) (s : State),
      config_source w = Some (Ok (PyDict d)) ->
      dict_get d "seed" = Some (PyBool b) ->
      dict_get d "window" = Some (PyBool true) ->
      dict_get d "version" = Some (PyStr v) ->
      fst (load_config w path s) = Ok (PyDict d)).
Proof.
  split; [done|]. split; [done|].
  intros w path d b v s Hsrc Hseed Hwin Hver.
  by apply (load_config_ok w path d (PyBool b) (PyBool true) v).
Qed.

Lemma load_config_accepts_booleans_witness :
  fst (load_config
         (world_with_config
            (PyDict [(PyStr "seed", PyBool false);
                     (PyStr "window", PyBool true);
                     (PyStr "version", PyStr "v1")]))
         "config.yaml" idle_state)
  = Ok (PyDict [(PyStr "seed", PyBool false);
                (PyStr "window", PyBool true);
                (PyStr "version", PyStr "v1")]).
Proof.
  apply (proj2 (proj2 load_config_accepts_booleans)
           _ "config.yaml" _ false "v1" idle_state).
  - reflexivity.
  - reflexivity.
  - reflexivity.
  - reflexivity.
Defined.

(** C6 at a document whose window is [true]: validation accepts it, the
    run goes on to seed the generator and to read the table, and fails
    only in the window statistic. *)
Theorem bool_window_reaches_data_loading :
  let w := world_with_config bool_window_config in
  fst (load_config w "config.yaml" (init_state w)) = Ok bool_window_config /\
  In (EvReadCsv "data.csv") (trace (snd (run w))) /\
  fst (run w) = Ok 1 /\
  out_file (snd (run w))
  = Document [("version", PyStr "v1"); ("status", PyStr "error");
              ("error_message",
               PyStr "window must be an integer 0 or greater")]%string.
Proof.
  split; [reflexivity|]. split; [vm_compute; tauto|].
  split; reflexivity.
Qed.

(** ** The output document *)

Lemma run_unfold (w : World) :
  run w
  = try_except
      (computed <- compute_stages w (clock w 0) ;;
       report_success w (fst computed) (snd computed))
      (report_failure w (clock w 0)) (try_entry w).
Proof. reflexivity. Qed.

Lemma calculate_metrics_record (signals : list Z) (rows latency : Z)
    (config : pyval) (s s' : State) (metrics : json_doc) :
  calculate_metrics signals rows config latency s = (Ok metrics, s') ->
  is_success_record metrics.
Proof.
  unfold calculate_metrics, bind, getitem. intros H.
  destruct config as [| | | | | |d]; try done.
  destruct (dict_get d "version") as [version|]; [|done]. simpl in H.
  destruct (dict_get d "seed") as [seed|]; [|done]. simpl in H.
  injection H as <- _. by split.
Qed.

Ltac invert_bind H :=
  let a := fresh "a" in
  let s := fresh "s" in
  let H1 := fresh "Hstep" in
  apply bind_inv_Ok in H; destruct H as (a & s & H1 & H).

Lemma compute_stages_record (w : World) (t : Q) (s s' : State)
    (metrics : json_doc) (elapsed_ms : Z) :
  compute_stages w t s = (Ok (metrics, elapsed_ms), s') ->
  is_success_record metrics.
Proof.
  unfold compute_stages. intros H.
  do 12 invert_bind H.
  injection H as <- _ _.
  eapply calculate_metrics_record; eassumption.
Qed.

Lemma error_record_shape (version : pyval) (msg : string) :
  let d := [("version", version); ("status", PyStr "error");
            ("error_message", PyStr msg)]%string in
  is_error_record d /\ ~ is_success_record d.
Proof.
  split; [by split|]. intros [Hkeys _]. discriminate Hkeys.
Qed.


(** The handler, when its write is accepted. *)
Lemma report_failure_written (w : World) (t : Q) (e : exn) (s : State) :
  write_attempt w (write_count s) = Written ->
  exists s' : State,
    report_failure w t e s = (Ok 1, s') /\
    out_file s'
    = Document [("version", version_var s); ("status", PyStr "error");
                ("error_message", PyStr (exn_str e))]%string.
Proof.
  intros Hw. unfold report_failure, bind, elapsed_since, time_time, ret,
    logger_error, logger_info, emit, get_version, write_output.
  simpl. rewrite Hw. simpl. eexists. split; reflexivity.
Qed.




(** ** The order of effects *)

Section StagesAppend.

Variable w : World.

Lemma time_time_appends (P : event -> Prop) :
  stable (appends P) (time_time w).
Proof. by apply appends_same_trace. Qed.

Lemma set_version_appends (P : event -> Prop) (v : pyval) :
  stable (appends P) (set_version v).
Proof. by apply appends_same_trace. Qed.

Lemma get_version_appends (P : event -> Prop) :
  stable (appends P) get_version.
Proof. by apply appends_same_trace. Qed.

Lemma elapsed_since_appends (P : event -> Prop) (t : Q) :
  stable (appends P) (elapsed_since w t).
Proof.
  unfold elapsed_since. stable_step; [apply time_time_appends|].
  stable_step.
Qed.

(** The stages neither write nor print the output document. *)
Lemma compute_stages_appends (t : Q) :
  stable (appends is_stage_event) (compute_stages w t).
Proof.
  unfold compute_stages, load_config, np_random_seed, load_data,
    compute_rolling_mean, generate_signals, calculate_metrics, df_close.
  repeat first
    [ apply set_version_appends
    | apply elapsed_since_appends
    | stable_step ].
Qed.

Lemma write_output_appends (data : json_doc) (p : string) :
  stable (appends is_report_event) (write_output w data p).
Proof.
  intros s. exists [EvWrite p data]. unfold write_output.
  destruct (write_attempt w (write_count s)); simpl;
    (split; [reflexivity|]);
    (apply Forall_cons; split; [exact I | apply Forall_nil; exact I]).
Qed.

Lemma report_success_appends (metrics : json_doc) (elapsed_ms : Z) :
  stable (appends is_report_event) (report_success w metrics elapsed_ms).
Proof.
  unfold report_success, print_json.
  repeat first [ apply write_output_appends | stable_step ].
Qed.

Lemma report_failure_appends (t : Q) (e : exn) :
  stable (appends is_report_event) (report_failure w t e).
Proof.
  unfold report_failure.
  repeat first
    [ apply write_output_appends
    | apply elapsed_since_appends
    | apply get_version_appends
    | stable_step ].
Qed.

(** The trace of a run: the stages first, then the report.  Once a write
    of the output document has been attempted, nothing follows but
    writing, printing and logging. *)
Lemma run_trace_shape :
  exists stage_evs report_evs : list event,
    trace (snd (run w)) = trace (try_entry w) ++ stage_evs ++ report_evs /\
    Forall is_stage_event stage_evs /\
    Forall is_report_event report_evs.
Proof.
  rewrite run_unfold. unfold try_except, bind.
  pose proof (compute_stages_appends (clock w 0) (try_entry w)) as Hst.
  destruct (compute_stages w (clock w 0) (try_entry w))
    as [[[metrics elapsed_ms]|e] s1];
    destruct Hst as (stage_evs & Hs1 & Hstage); exists stage_evs;
    simpl in Hs1.
  - pose proof (report_success_appends metrics elapsed_ms s1) as Hrep.
    simpl fst. simpl snd.
    destruct (report_success w metrics elapsed_ms s1) as [[code|e] s2].
    + destruct Hrep as (report_evs & Hs2 & Hreport). exists report_evs.
      simpl in *. by rewrite Hs2, Hs1.
    + pose proof (report_failure_appends (clock w 0) e s2) as Hfail.
      destruct (transitivity Hrep Hfail) as (report_evs & Hs3 & Hreport).
      exists report_evs. simpl in *. by rewrite Hs3, Hs1.
  - destruct (report_failure_appends (clock w 0) e s1)
      as (report_evs & Hs2 & Hreport).
    exists report_evs. simpl. by rewrite Hs2, Hs1.
Qed.

End StagesAppend.

(** ** A failing write *)

(** Where no write is accepted the run ends with an uncaught exception
    and no document: the guarantee of one document per run rests on the
    file system. *)
Example unwritable_output_leaves_no_document :
  fst (run world_unwritable)
  = Raise (Exn OSError "[Errno 13] Permission denied") /\
  out_file (snd (run world_unwritable)) = NoFile /\
  write_count (snd (run world_unwritable)) = 2%nat.
Proof. repeat split; vm_compute; reflexivity. Qed.

Lemma report_success_fails (w : World) (metrics : json_doc)
    (elapsed_ms : Z) (s : State) (e : exn) :
  write_fails (write_attempt w (write_count s)) e ->
  exists s' : State,
    report_success w metrics elapsed_ms s = (Raise e, s') /\
    write_count s' = S (write_count s) /\
    version_var s' = version_var s.
Proof.
  intros Hw. unfold report_success, bind, write_output.
  destruct Hw as [-> | ->]; simpl; eexists; (split; [|split]); reflexivity.
Qed.

Lemma report_failure_fails (w : World) (t : Q) (e e' : exn) (s : State) :
  write_fails (write_attempt w (write_count s)) e' ->
  exists s' : State, report_failure w t e s = (Raise e', s').
Proof.
  intros Hw. unfold report_failure, bind, elapsed_since, time_time, ret,
    logger_error, logger_info, emit, get_version, write_output.
  simpl. destruct Hw as [-> | ->]; simpl; eexists; reflexivity.
Qed.

(** C8 as worded fails: the failed write of the success record is caught
    by the handler, which writes an error record carrying the failure's
    message, and [main] returns 1. *)
Lemma failed_success_write_is_caught :
  let w := world_disk_full in
  (exists (metrics : json_doc) (elapsed_ms : Z) (s1 : State),
      compute_stages w (clock w 0) (try_entry w)
      = (Ok (metrics, elapsed_ms), s1) /\
      is_success_record metrics /\
      trace (snd (run w)) !! 12%nat
      = Some (EvWrite "metrics.json" metrics)) /\
  write_attempt w 0 = DumpFails disk_full /\
  fst (run w) = Ok 1 /\
  out_file (snd (run w))
  = Document [("version", PyStr "v1"); ("status", PyStr "error");
              ("error_message",
               PyStr "[Errno 28] No space left on device")]%string.
Proof.
  split.
  { eexists _, _, _. split; [vm_compute; reflexivity|].
    split; [by split | vm_compute; reflexivity]. }
  split; [reflexivity|]. split; vm_compute; reflexivity.
Qed.

(** C8, as the code has it: the report is the last part of a run (once a
    write of the output document has been attempted, only writing,
    printing and logging follow), and a failure of the success-record
    write is handled like a stage failure.  The handler writes an error
    record with the failure's message to the same path and [main]
    returns 1; only when that second write fails too does the exception
    leave [main]. *)
Theorem success_write_failure_is_handled :
  (forall w : World,
      exists stage_evs report_evs : list event,
        trace (snd (run w)) = trace (try_entry w) ++ stage_evs ++ report_evs /\
        Forall is_stage_event stage_evs /\
        Forall is_report_event report_evs) /\
  (forall (w : World) (metrics : json_doc) (elapsed_ms : Z) (s1 : State)
          (e : exn),
      compute_stages w (clock w 0) (try_entry w)
      = (Ok (metrics, elapsed_ms), s1) ->
      write_fails (write_attempt w 0) e ->
      (write_attempt w 1 = Written ->
       exists s' : State,
         run w = (Ok 1, s') /\
         out_file s'
         = Document [("version", version_var s1); ("status", PyStr "error");
                     ("error_message", PyStr (exn_str e))]%string) /\
      (forall e' : exn,
          write_fails (write_attempt w 1) e' ->
          exists s' : State, run w = (Raise e', s'))).
Proof.
  split; [exact run_trace_shape|].
  intros w metrics elapsed_ms s1 e Hc Hw0.
  destruct (compute_stages_same_file w (clock w 0) (try_entry w))
    as [Hcount _].
  rewrite Hc in Hcount. simpl in Hcount.
  rewrite <- Hcount in Hw0.
  destruct (report_success_fails w metrics elapsed_ms s1 e Hw0)
    as (s2 & Hrun & Hcount2 & Hver).
  rewrite Hcount in Hcount2.
  assert (Hmain : run w = report_failure w (clock w 0) e s2).
  { rewrite run_unfold. unfold try_except.
    rewrite (bind_Ok _ _ _ _ _ Hc). simpl fst. simpl snd.
    by rewrite Hrun. }
  rewrite Hmain. split.
  - intros Hw1. rewrite <- Hcount2 in Hw1.
    destruct (report_failure_written w (clock w 0) e s2 Hw1)
      as (s3 & Hfail & Hout).
    exists s3. split; [exact Hfail|]. by rewrite Hout, Hver.
  - intros e' Hw1. rewrite <- Hcount2 in Hw1.
    by apply report_failure_fails.
Qed.

Lemma success_write_failure_is_handled_witness :
  exists s' : State,
    run world_disk_full = (Ok 1, s') /\
    out_file s'
    = Document [("version", PyStr "v1"); ("status", PyStr "error");
                ("error_message", PyStr (exn_str disk_full))]%string.
Proof.
  eassert (Hc : compute_stages world_disk_full (clock world_disk_full 0)
                  (try_entry world_disk_full) = (Ok (_, _), _)).
  { vm_compute. reflexivity. }
  exact (proj1 (proj2 success_write_failure_is_handled world_disk_full
                  _ _ _ disk_full Hc (or_intror eq_refl)) eq_refl).
Defined.

(** ** Two runs on the same documents *)




#[global] Instance agree_but_file_equiv : Equivalence agree_but_file.
Proof.
  split.
  - by intros s.
  - intros s1 s2 (H1 & H2 & H3 & H4). by repeat split.
  - intros s1 s2 s3 (H1 & H2 & H3 & H4) (H1' & H2' & H3' & H4').
    repeat split; congruence.
Qed.



(** *** The stages do not look at the output path *)





















(** The two runs of the witness do differ in [latency_ms]. *)
Example latency_differs :
  file_get (out_file (snd (run (world_with_config sample_config))))
    "latency_ms" = Some (PyInt 250) /\
  file_get (out_file (snd (run world_rerun))) "latency_ms"
  = Some (PyInt 3500) /\
  initial_output world_rerun
  <> initial_output (world_with_config sample_config).
Proof.
  split; [vm_compute; reflexivity|]. split; [vm_compute; reflexivity|].
  vm_compute. discriminate.
Qed.

(** ** A rejected configuration stops the run before the table *)

Lemma load_config_rejects (w : World) (path : string) (config : pyval)
    (s : State) :
  config_source w = Some (Ok config) ->
  config_accepted config = false ->
  exists msg : string,
    fst (load_config w path s) = Raise (Exn ValueError msg).
Proof.
  intros Hsrc Hrej. unfold load_config. rewrite Hsrc.
  unfold bind, emit, lift, for_each, contains, getitem, ret, raise.
  simpl.
  destruct config as [| | | | | |d];
    try (destruct (truthy _); simpl; eexists; reflexivity).
  destruct d as [|kv d']; [simpl; eexists; reflexivity|].
  change (truthy (PyDict (kv :: d'))) with true.
  set (dd := kv :: d') in *. clearbody dd. simpl in Hrej. simpl.
  destruct (dict_get dd "seed") as [seed|]; [|simpl; eexists; reflexivity].
  destruct (dict_get dd "window") as [window|];
    [|simpl; eexists; reflexivity].
  destruct (dict_get dd "version") as [version|];
    [|simpl; eexists; reflexivity].
  simpl.
  destruct (isinstance_int seed); [|simpl; eexists; reflexivity].
  destruct (isinstance_int window); [|simpl; eexists; reflexivity].
  simpl in *.
  destruct (Z.ltb_spec (int_of window) 1) as [?|Hge];
    [simpl; eexists; reflexivity|].
  destruct (Z.leb_spec 1 (int_of window)) as [_|?]; [|lia].
  simpl in Hrej. rewrite Hrej. simpl. eexists; reflexivity.
Qed.

Lemma write_output_no_new_read (w : World) (data : json_doc) (p : string) :
  stable no_new_read (write_output w data p).
Proof.
  intros s q. unfold write_output.
  destruct (write_attempt w (write_count s)); simpl;
    rewrite elem_of_app, list_elem_of_singleton;
    (intros [H|H]; [exact H | discriminate H]).
Qed.

Lemma report_failure_no_new_read (w : World) (t : Q) (e : exn) :
  stable no_new_read (report_failure w t e).
Proof.
  unfold report_failure, elapsed_since.
  repeat first
    [ apply write_output_no_new_read
    | stable_step
    | (intros s q H; exact H) ].
Qed.

(** When validation fails, for whatever reason, the run reads no table. *)
Lemma failed_validation_reads_no_table (w : World) (e : exn) (s1 : State) :
  load_config w (arg_config (args w)) (try_entry w) = (Raise e, s1) ->
  forall p : string, EvReadCsv p ∉ trace (snd (run w)).
Proof.
  intros Hcfg p Hin.
  pose proof (load_config_no_new_read w (arg_config (args w)) (try_entry w))
    as Hload.
  rewrite Hcfg in Hload. simpl in Hload.
  rewrite run_unfold in Hin. unfold try_except in Hin.
  unfold compute_stages in Hin.
  rewrite (bind_Raise _ _ _ _ _ (bind_Raise _ _ _ _ _ Hcfg)) in Hin.
  apply (report_failure_no_new_read w (clock w 0) e s1) in Hin.
  apply Hload in Hin. simpl in Hin.
  apply list_elem_of_singleton in Hin. discriminate Hin.
Qed.

(** * Further properties *)

(** ** Configuration: what validation guarantees *)

Lemma load_config_inv (w : World) (path : string)
    (config : pyval) (s s' : State) :
  load_config w path s = (Ok config, s') ->
  config_source w = Some (Ok config) /\
  exists (d : list (pyval * pyval)) (seed window : pyval) (version : string),
    config = PyDict d /\
    dict_get d "seed" = Some seed /\ isinstance_int seed = true /\
    dict_get d "window" = Some window /\ isinstance_int window = true /\
    1 <= int_of window /\
    dict_get d "version" = Some (PyStr version) /\
    trace s'
    = trace s ++ [EvIsFile path; EvYamlLoad path;
                  EvLog INFO "Config loaded: seed=%d, window=%d, version=%s"
                    [seed; window; PyStr version]] /\
    out_file s' = out_file s /\ version_var s' = version_var s.
Proof.
  unfold load_config. intros H.
  destruct (config_source w) as [[c|e]|]; [| |].
  2: { unfold bind, emit, lift in H. simpl in H. discriminate H. }
  2: { unfold bind, emit, raise in H. simpl in H. discriminate H. }
  unfold bind, emit, lift, for_each, contains, getitem, ret, raise in H.
  simpl in H.
  destruct c as [| | | | | |d];
    try (destruct (truthy _); simpl in H; discriminate H).
  destruct d as [|kv d']; [simpl in H; discriminate H|].
  change (truthy (PyDict (kv :: d'))) with true in H.
  set (dd := kv :: d') in *. clearbody dd. simpl in H.
  destruct (dict_get dd "seed") as [seed|] eqn:Hs; [|simpl in H; discriminate H].
  destruct (dict_get dd "window") as [window|] eqn:Hw;
    [|simpl in H; discriminate H].
  destruct (dict_get dd "version") as [version|] eqn:Hv;
    [|simpl in H; discriminate H].
  simpl in H.
  destruct (isinstance_int seed) eqn:Hseed; [|simpl in H; discriminate H].
  destruct (isinstance_int window) eqn:Hwin; [|simpl in H; discriminate H].
  simpl in H.
  destruct (Z.ltb_spec (int_of window) 1) as [?|Hge];
    [simpl in H; discriminate H|].
  destruct version as [| | | |v| |]; simpl in H; try discriminate H.
  injection H as <- <-.
  split; [reflexivity|].
  exists dd, seed, window, v.
  repeat split; try done.
  simpl. by rewrite <- !app_assoc.
Qed.

(** X1: when [load_config] returns, it returns the parsed document
    unchanged, and the three lookups the later stages make on it cannot
    raise: [config['seed']] is an [int] instance, [config['window']] an
    [int] instance of at least 1, [config['version']] a [str]. *)
Theorem load_config_postcondition (w : World) (path : string)
    (config : pyval) (s s' : State) :
  load_config w path s = (Ok config, s') ->
  config_source w = Some (Ok config) /\
  exists (seed window : pyval) (version : string),
    (forall s2, getitem config "seed" s2 = (Ok seed, s2)) /\
    (forall s2, getitem config "window" s2 = (Ok window, s2)) /\
    (forall s2, getitem config "version" s2 = (Ok (PyStr version), s2)) /\
    isinstance_int seed = true /\
    isinstance_int window = true /\ 1 <= int_of window.
Proof.
  intros H. destruct (load_config_inv w path config s s' H)
    as (Hsrc & d & seed & window & version & -> & Hs & His & Hw & Hiw
        & Hpos & Hv & _).
  split; [exact Hsrc|]. exists seed, window, version.
  unfold getitem. rewrite Hs, Hw, Hv. done.
Qed.

Lemma load_config_postcondition_witness :
  config_source (world_with_config sample_config) = Some (Ok sample_config) /\
  exists (seed window : pyval) (version : string),
    (forall s2, getitem sample_config "seed" s2 = (Ok seed, s2)) /\
    (forall s2, getitem sample_config "window" s2 = (Ok window, s2)) /\
    (forall s2,
        getitem sample_config "version" s2 = (Ok (PyStr version), s2)) /\
    isinstance_int seed = true /\
    isinstance_int window = true /\ 1 <= int_of window.
Proof.
  apply (load_config_postcondition (world_with_config sample_config)
           "config.yaml" sample_config idle_state
           (snd (load_config (world_with_config sample_config)
                   "config.yaml" idle_state))).
  reflexivity.
Defined.

Lemma load_config_missing (w : World) (path : string)
    (d : list (pyval * pyval)) (s : State) :
  config_source w = Some (Ok (PyDict d)) -> d <> [] ->
  (dict_get d "seed" = None ->
   fst (load_config w path s)
   = Raise (Exn ValueError "Missing required config key: seed")) /\
  (is_Some (dict_get d "seed") -> dict_get d "window" = None ->
   fst (load_config w path s)
   = Raise (Exn ValueError "Missing required config key: window")) /\
  (is_Some (dict_get d "seed") -> is_Some (dict_get d "window") ->
   dict_get d "version" = None ->
   fst (load_config w path s)
   = Raise (Exn ValueError "Missing required config key: version")).
Proof.
  intros Hsrc Hne. unfold load_config. rewrite Hsrc.
  unfold bind, emit, lift, for_each, contains, getitem, ret, raise.
  destruct d as [|kv d']; [done|].
  change (truthy (PyDict (kv :: d'))) with true.
  set (dd := kv :: d') in *. clearbody dd. simpl.
  split; [|split].
  - intros ->. reflexivity.
  - intros [x ->] ->. reflexivity.
  - intros [x ->] [y ->] ->. reflexivity.
Qed.

(** X2: when keys are missing from a non-empty mapping, the error names
    the first missing one in the order seed, window, version. *)
Theorem load_config_names_first_missing_key (w : World) (path : string)
    (d : list (pyval * pyval)) (s : State)
    (present : list string) (key : string) (rest : list string) :
  config_source w = Some (Ok (PyDict d)) -> d <> [] ->
  ["seed"; "window"; "version"]%string = present ++ key :: rest ->
  Forall (fun k => is_Some (dict_get d k)) present ->
  dict_get d key = None ->
  fst (load_config w path s)
  = Raise (Exn ValueError ("Missing required config key: " +:+ key)).
Proof.
  intros Hsrc Hne Hkeys Hpresent Hmissing.
  destruct (load_config_missing w path d s Hsrc Hne) as (H1 & H2 & H3).
  destruct present as [|a [|b [|c present]]]; simplify_eq/=.
  - by apply H1.
  - apply Forall_cons in Hpresent as [Ha _]. by apply H2.
  - apply Forall_cons in Hpresent as [Ha Hb].
    apply Forall_cons in Hb as [Hb _]. by apply H3.
  - destruct present; discriminate.
Qed.

Lemma load_config_names_first_missing_key_witness :
  fst (load_config
         (world_with_config
            (PyDict [(PyStr "seed", PyInt 42); (PyStr "mode", PyStr "x")]))
         "config.yaml" idle_state)
  = Raise (Exn ValueError ("Missing required config key: " +:+ "window")).
Proof.
  apply (load_config_names_first_missing_key _ "config.yaml"
           [(PyStr "seed", PyInt 42); (PyStr "mode", PyStr "x")]
           idle_state ["seed"%string] "window" ["version"%string]).
  - reflexivity.
  - discriminate.
  - reflexivity.
  - apply Forall_cons. split; [eexists; reflexivity | apply Forall_nil; exact I].
  - reflexivity.
Defined.

Lemma dict_get_insert_other (d1 d2 : list (pyval * pyval)) (k v : pyval)
    (key : string) :
  key_is key k = false ->
  dict_get (d1 ++ (k, v) :: d2) key = dict_get (d1 ++ d2) key.
Proof.
  intros Hk. induction d1 as [|[k1 v1] d1 IH]; simpl.
  - by rewrite Hk.
  - by rewrite IH.
Qed.

(** X3: keys other than seed, window and version are ignored: a document
    is accepted with an extra item exactly when it is accepted without
    it, and it is returned with the extra item. *)
Theorem load_config_ignores_extra_keys (w w' : World) (path : string)
    (d1 d2 : list (pyval * pyval)) (k v : pyval) (s : State) :
  config_source w = Some (Ok (PyDict (d1 ++ d2))) ->
  config_source w' = Some (Ok (PyDict (d1 ++ (k, v) :: d2))) ->
  key_is "seed" k = false -> key_is "window" k = false ->
  key_is "version" k = false ->
  fst (load_config w path s) = Ok (PyDict (d1 ++ d2)) <->
  fst (load_config w' path s) = Ok (PyDict (d1 ++ (k, v) :: d2)).
Proof.
  intros Hsrc Hsrc' Hk1 Hk2 Hk3.
  pose proof (dict_get_insert_other d1 d2 k v "seed" Hk1) as E1.
  pose proof (dict_get_insert_other d1 d2 k v "window" Hk2) as E2.
  pose proof (dict_get_insert_other d1 d2 k v "version" Hk3) as E3.
  split; intros H.
  - destruct (load_config w path s) as [[c|e] s1] eqn:Hrun; [|done].
    simpl in H. injection H as ->.
    destruct (load_config_inv w path _ s s1 Hrun)
      as (_ & d & seed & window & version & Hd & Hs & His & Hw & Hiw
          & Hpos & Hv & _).
    injection Hd as <-.
    apply (load_config_ok w' path _ seed window version); try done;
      congruence.
  - destruct (load_config w' path s) as [[c|e] s1] eqn:Hrun; [|done].
    simpl in H. injection H as ->.
    destruct (load_config_inv w' path _ s s1 Hrun)
      as (_ & d & seed & window & version & Hd & Hs & His & Hw & Hiw
          & Hpos & Hv & _).
    injection Hd as <-.
    apply (load_config_ok w path _ seed window version); try done;
      congruence.
Qed.

Lemma load_config_ignores_extra_keys_witness :
  fst (load_config (world_with_config sample_config) "config.yaml" idle_state)
  = Ok sample_config <->
  fst (load_config
         (world_with_config
            (PyDict [(PyStr "seed", PyInt 42); (PyStr "note", PyNone);
                     (PyStr "window", PyInt 3);
                     (PyStr "version", PyStr "v1")]))
         "config.yaml" idle_state)
  = Ok (PyDict [(PyStr "seed", PyInt 42); (PyStr "note", PyNone);
                (PyStr "window", PyInt 3); (PyStr "version", PyStr "v1")]).
Proof.
  apply (load_config_ignores_extra_keys
           (world_with_config sample_config) _ "config.yaml"
           [(PyStr "seed", PyInt 42)]
           [(PyStr "window", PyInt 3); (PyStr "version", PyStr "v1")]
           (PyStr "note") PyNone idle_state).
  - reflexivity.
  - reflexivity.
  - reflexivity.
  - reflexivity.
  - reflexivity.
Defined.

(** ** The local [version] *)

#[global] Instance same_version_preorder : PreOrder same_version.
Proof.
  split; [by intros s|]. intros s1 s2 s3 H1 H2.
  unfold same_version in *. congruence.
Qed.

Lemma same_version_emit (ev : event) : stable same_version (emit ev).
Proof. by intros s. Qed.

Ltac frame_step :=
  match goal with
  | |- stable same_version (emit _) => apply same_version_emit
  | |- stable same_version (logger_info _ _) => apply same_version_emit
  | |- stable same_version (logger_error _ _) => apply same_version_emit
  | |- stable same_version (time_time _) => by intros ?
  | |- stable _ (elapsed_since _ _) => unfold elapsed_since
  | |- stable _ (load_config _ _) => unfold load_config
  | |- stable _ (np_random_seed _) => unfold np_random_seed
  | |- stable _ (load_data _ _) => unfold load_data
  | |- stable _ (compute_rolling_mean _ _) => unfold compute_rolling_mean
  | |- stable _ (generate_signals _ _) => unfold generate_signals
  | |- stable _ (calculate_metrics _ _ _ _) => unfold calculate_metrics
  | |- stable _ (df_close _) => unfold df_close
  | _ => stable_step
  end.

Ltac frame_auto := repeat frame_step.

Lemma load_config_same_version (w : World) (p : string) :
  stable same_version (load_config w p).
Proof. frame_auto. Qed.

(** ** The version in the error record *)

Lemma run_after_stage_failure (w : World) (e : exn) (s1 : State) :
  compute_stages w (clock w 0) (try_entry w) = (Raise e, s1) ->
  run w = report_failure w (clock w 0) e s1.
Proof.
  intros Hc. rewrite run_unfold. unfold try_except.
  by rewrite (bind_Raise _ _ _ _ _ Hc).
Qed.

Lemma compute_stages_config_failure (w : World) (t : Q) (e : exn)
    (s s1 : State) :
  load_config w (arg_config (args w)) s = (Raise e, s1) ->
  compute_stages w t s = (Raise e, s1).
Proof. intros H. unfold compute_stages. by rewrite (bind_Raise _ _ _ _ _ H). Qed.

(** X4: when loading or validating the configuration fails, for whatever
    reason, the error record carries the placeholder version "v1", also
    when the document has a version of its own. *)
Theorem config_failure_reports_placeholder_version (w : World) (e : exn)
    (s1 : State) :
  load_config w (arg_config (args w)) (try_entry w) = (Raise e, s1) ->
  write_attempt w 0 = Written ->
  exists s' : State,
    run w = (Ok 1, s') /\
    out_file s' = Document (error_record (PyStr "v1") (exn_str e)).
Proof.
  intros Hcfg Hw.
  destruct (load_config_same_file w (arg_config (args w)) (try_entry w))
    as [Hcount _].
  pose proof (load_config_same_version w (arg_config (args w)) (try_entry w))
    as Hver.
  rewrite Hcfg in Hcount, Hver. unfold same_version in Hver.
  simpl in Hcount, Hver.
  rewrite (run_after_stage_failure w e s1)
    by (by apply compute_stages_config_failure).
  rewrite <- Hcount in Hw.
  destruct (report_failure_written w (clock w 0) e s1 Hw)
    as (s' & Hrun & Hout).
  exists s'. split; [exact Hrun|]. by rewrite Hout, Hver.
Qed.

Lemma config_failure_reports_placeholder_version_witness :
  exists s' : State,
    run (world_with_config config_without_window) = (Ok 1, s') /\
    out_file s'
    = Document (error_record (PyStr "v1")
                  "Missing required config key: window").
Proof.
  eassert (Hc : load_config (world_with_config config_without_window)
                  "config.yaml"
                  (try_entry (world_with_config config_without_window))
                = (Raise _, _)).
  { vm_compute. reflexivity. }
  exact (config_failure_reports_placeholder_version
           (world_with_config config_without_window) _ _ Hc eq_refl).
Defined.

(** After the configuration was accepted, the failing stage leaves the
    local [version] at the configuration's version. *)
Lemma version_after_config (w : World) (t : Q) (d : list (pyval * pyval))
    (s0 s1 : State) (e : exn) (version : string) :
  load_config w (arg_config (args w)) (try_entry w) = (Ok (PyDict d), s0) ->
  dict_get d "version" = Some (PyStr version) ->
  compute_stages w t (try_entry w) = (Raise e, s1) ->
  version_var s1 = PyStr version /\ write_count s1 = 0%nat.
Proof.
  intros Hcfg Hv Hc. split.
  - unfold compute_stages in Hc. rewrite (bind_Ok _ _ _ _ _ Hcfg) in Hc.
    unfold getitem at 1 in Hc. rewrite Hv in Hc.
    rewrite (bind_Ok _ _ s0 s0 (PyStr version)) in Hc by reflexivity.
    unfold bind at 1, set_version at 1 in Hc.
    match type of Hc with
    | ?m ?s = _ =>
        assert (Hst : stable same_version m) by frame_auto;
        specialize (Hst s); rewrite Hc in Hst
    end.
    exact Hst.
  - destruct (compute_stages_same_file w t (try_entry w)) as [Hcount _].
    by rewrite Hc in Hcount.
Qed.

(** X5: once the configuration was accepted, a failure of any later stage
    is reported with the configuration's own version. *)
Theorem later_failure_reports_config_version (w : World)
    (config : pyval) (s0 s1 : State) (e : exn) :
  load_config w (arg_config (args w)) (try_entry w) = (Ok config, s0) ->
  compute_stages w (clock w 0) (try_entry w) = (Raise e, s1) ->
  write_attempt w 0 = Written ->
  exists (version : string) (s' : State),
    getitem config "version" s0 = (Ok (PyStr version), s0) /\
    run w = (Ok 1, s') /\
    out_file s' = Document (error_record (PyStr version) (exn_str e)).
Proof.
  intros Hcfg Hc Hw.
  destruct (load_config_inv w _ config _ s0 Hcfg)
    as (_ & d & seed & window & version & -> & _ & _ & _ & _ & _ & Hv & _).
  destruct (version_after_config w _ d s0 s1 e version Hcfg Hv Hc)
    as [Hver Hcount].
  rewrite (run_after_stage_failure w e s1 Hc).
  rewrite <- Hcount in Hw.
  destruct (report_failure_written w (clock w 0) e s1 Hw)
    as (s' & Hrun & Hout).
  exists version, s'. split; [unfold getitem; by rewrite Hv|].
  split; [exact Hrun|]. by rewrite Hout, Hver.
Qed.

Lemma later_failure_reports_config_version_witness :
  exists (version : string) (s' : State),
    getitem
      (PyDict [(PyStr "seed", PyInt 42); (PyStr "window", PyInt 3);
               (PyStr "version", PyStr "v7")]) "version"
      (snd (load_config world_missing_input "config.yaml"
              (try_entry world_missing_input)))
    = (Ok (PyStr version),
       snd (load_config world_missing_input "config.yaml"
              (try_entry world_missing_input))) /\
    run world_missing_input = (Ok 1, s') /\
    out_file s'
    = Document (error_record (PyStr version)
                  "Input file not found: data.csv").
Proof.
  eassert (Hc : compute_stages world_missing_input
                  (clock world_missing_input 0)
                  (try_entry world_missing_input) = (Raise _, _)).
  { vm_compute. reflexivity. }
  exact (later_failure_reports_config_version world_missing_input
           _ _ _ _ eq_refl Hc eq_refl).
Defined.

(** ** Seeding *)

Lemma stages_fail_at_seeding (w : World) (t : Q)
    (d : list (pyval * pyval)) (z : Z) (version : string) (s0 : State) :
  load_config w (arg_config (args w)) (try_entry w) = (Ok (PyDict d), s0) ->
  dict_get d "seed" = Some (PyInt z) ->
  dict_get d "version" = Some (PyStr version) ->
  z < 0 \/ 2 ^ 32 - 1 < z ->
  exists s1 : State,
    compute_stages w t (try_entry w)
    = (Raise (Exn ValueError seed_message), s1) /\
    trace s1 = trace s0.
Proof.
  intros Hcfg Hs Hv Hz.
  unfold compute_stages. rewrite (bind_Ok _ _ _ _ _ Hcfg).
  unfold getitem. rewrite Hv, Hs.
  unfold bind, ret, set_version, np_random_seed.
  cbn [isinstance_int int_of].
  assert (Hrange : (z <? 0) || (2 ^ 32 - 1 <? z) = true).
  { apply orb_true_iff.
    destruct Hz; [left; apply Z.ltb_lt | right; apply Z.ltb_lt]; lia. }
  rewrite Hrange. eexists. split; reflexivity.
Qed.

(** X6: validation puts no range on the seed.  A seed outside
    [0, 2^32 - 1] is accepted by [load_config], and the run then fails at
    seeding: before the table is read, with the configuration's version
    in the error record. *)
Theorem seed_out_of_range_fails_at_seeding (w : World)
    (d : list (pyval * pyval)) (z : Z) (s0 : State) :
  load_config w (arg_config (args w)) (try_entry w) = (Ok (PyDict d), s0) ->
  dict_get d "seed" = Some (PyInt z) ->
  z < 0 \/ 2 ^ 32 - 1 < z ->
  write_attempt w 0 = Written ->
  exists (version : string) (s' : State),
    dict_get d "version" = Some (PyStr version) /\
    run w = (Ok 1, s') /\
    out_file s' = Document (error_record (PyStr version) seed_message) /\
    forall p : string, EvReadCsv p ∉ trace s'.
Proof.
  intros Hcfg Hs Hz Hw.
  destruct (load_config_inv w _ _ _ s0 Hcfg)
    as (_ & d' & seed & window & version & Hd & _ & _ & _ & _ & _ & Hv & _).
  injection Hd as <-.
  destruct (stages_fail_at_seeding w (clock w 0) d z version s0
              Hcfg Hs Hv Hz) as (s1 & Hc & Htrace).
  destruct (version_after_config w _ d s0 s1 _ version Hcfg Hv Hc)
    as [Hver Hcount].
  rewrite (run_after_stage_failure w _ s1 Hc).
  rewrite <- Hcount in Hw.
  destruct (report_failure_written w (clock w 0)
              (Exn ValueError seed_message) s1 Hw) as (s' & Hrun & Hout).
  exists version, s'. split; [exact Hv|]. split; [exact Hrun|].
  split; [by rewrite Hout, Hver|].
  intros p Hin.
  pose proof (report_failure_no_new_read w (clock w 0)
                (Exn ValueError seed_message) s1 p) as Hfail.
  rewrite Hrun in Hfail. apply Hfail in Hin. rewrite Htrace in Hin.
  pose proof (load_config_no_new_read w (arg_config (args w))
                (try_entry w) p) as Hload.
  rewrite Hcfg in Hload. apply Hload in Hin. simpl in Hin.
  apply list_elem_of_singleton in Hin. discriminate Hin.
Qed.

Lemma seed_out_of_range_fails_at_seeding_witness :
  exists (version : string) (s' : State),
    dict_get [(PyStr "seed", PyInt (-1)); (PyStr "window", PyInt 3);
              (PyStr "version", PyStr "v1")] "version"
    = Some (PyStr version) /\
    run (world_with_config
           (PyDict [(PyStr "seed", PyInt (-1)); (PyStr "window", PyInt 3);
                    (PyStr "version", PyStr "v1")])) = (Ok 1, s') /\
    out_file s' = Document (error_record (PyStr version) seed_message) /\
    forall p : string, EvReadCsv p ∉ trace s'.
Proof.
  refine (seed_out_of_range_fails_at_seeding
            (world_with_config
               (PyDict [(PyStr "seed", PyInt (-1)); (PyStr "window", PyInt 3);
                        (PyStr "version", PyStr "v1")]))
            _ (-1) _ eq_refl eq_refl _ eq_refl).
  left. lia.
Defined.

(** ** Loading the table *)

Lemma load_data_inv (w : World) (path : string) (df : DataFrame)
    (s s' : State) :
  load_data w path s = (Ok df, s') ->
  input_source w = Some (Ok df) /\
  df_empty df = false /\
  (exists col, df_column (df_columns df) "close" = Some col) /\
  trace s'
  = trace s ++ [EvIsFile path; EvReadCsv path;
                EvLog INFO "Data loaded: %d rows"
                  [PyInt (Z.of_nat (df_nrows df))]].
Proof.
  unfold load_data. intros H.
  destruct (input_source w) as [[df0|e]|].
  - unfold bind, emit, try_except, lift, raise, ret in H. simpl in H.
    destruct (df_empty df0) eqn:Hempty; [discriminate H|].
    destruct (df_column (df_columns df0) "close") as [col|] eqn:Hcol;
      [|discriminate H].
    unfold logger_info, emit in H. simpl in H. injection H as <- <-.
    split; [reflexivity|]. split; [exact Hempty|].
    split; [by exists col|]. simpl. by rewrite <- !app_assoc.
  - unfold bind, emit, try_except, lift, raise in H. simpl in H.
    destruct (exn_class_of e); discriminate H.
  - unfold bind, emit, raise in H. simpl in H. discriminate H.
Qed.

(** X7: the table [load_data] returns is the table that was read; it has
    at least one row and a column named close, so [df['close']] cannot
    raise afterwards; the file was checked once and read once. *)
Theorem load_data_postcondition (w : World) (path : string) (df : DataFrame)
    (s s' : State) :
  load_data w path s = (Ok df, s') ->
  input_source w = Some (Ok df) /\
  (0 < df_nrows df)%nat /\
  (exists col : list cell, forall s2, df_close df s2 = (Ok col, s2)) /\
  trace s'
  = trace s ++ [EvIsFile path; EvReadCsv path;
                EvLog INFO "Data loaded: %d rows"
                  [PyInt (Z.of_nat (df_nrows df))]].
Proof.
  intros H. destruct (load_data_inv w path df s s' H)
    as (Hsrc & Hempty & [col Hcol] & Htrace).
  split; [exact Hsrc|]. split.
  { unfold df_empty in Hempty. destruct (df_columns df); [done|].
    apply Nat.eqb_neq in Hempty. lia. }
  split; [|exact Htrace].
  exists col. intros s2. unfold df_close. by rewrite Hcol.
Qed.

Lemma load_data_postcondition_witness :
  input_source (world_with_config sample_config)
  = Some (Ok (price_table [Some 1; Some 2; Some 3; Some 4; Some 5]%Q)) /\
  (0 < df_nrows (price_table [Some 1; Some 2; Some 3; Some 4; Some 5]%Q))%nat /\
  (exists col : list cell,
      forall s2,
        df_close (price_table [Some 1; Some 2; Some 3; Some 4; Some 5]%Q) s2
        = (Ok col, s2)) /\
  trace (snd (load_data (world_with_config sample_config) "data.csv"
                idle_state))
  = trace idle_state
    ++ [EvIsFile "data.csv"; EvReadCsv "data.csv";
        EvLog INFO "Data loaded: %d rows"
          [PyInt (Z.of_nat
                    (df_nrows
                       (price_table
                          [Some 1; Some 2; Some 3; Some 4; Some 5]%Q)))]].
Proof.
  apply (load_data_postcondition (world_with_config sample_config)
           "data.csv" _ idle_state
           (snd (load_data (world_with_config sample_config) "data.csv"
                   idle_state))).
  reflexivity.
Defined.

(** X8: [load_data] never lets pandas' [EmptyDataError] or [ParserError]
    out: both become a [ValueError] with a fixed message.  Any other
    exception of the reader passes unchanged, and a path that is not a
    file is reported without an attempt to read it. *)
Theorem load_data_exceptions (w : World) (path : string) (e : exn)
    (s s' : State) :
  load_data w path s = (Raise e, s') ->
  exn_class_of e <> EmptyDataError /\
  exn_class_of e <> ParserError /\
  (input_source w = None ->
   e = Exn FileNotFoundError ("Input file not found: " +:+ path) /\
   trace s' = trace s ++ [EvIsFile path]) /\
  (forall e0 : exn,
      input_source w = Some (Raise e0) ->
      match exn_class_of e0 with
      | EmptyDataError => e = Exn ValueError "Input CSV file is empty"
      | ParserError => e = Exn ValueError "Invalid CSV format"
      | _ => e = e0
      end).
Proof.
  unfold load_data. intros H.
  destruct (input_source w) as [[df0|e0]|].
  - unfold bind, emit, try_except, lift, raise, ret in H. simpl in H.
    destruct (df_empty df0);
      [|destruct (df_column (df_columns df0) "close")];
      simplify_eq/=; done.
  - unfold bind, emit, try_except, lift, raise in H. simpl in H.
    destruct (exn_class_of e0) eqn:Hcls; simplify_eq/=;
      (split; [congruence || done|]); (split; [congruence || done|]);
      (split; [done|]); intros e1 [= <-]; by rewrite Hcls.
  - unfold bind, emit, raise in H. simpl in H. simplify_eq/=. done.
Qed.

Lemma load_data_exceptions_witness :
  exn_class_of (Exn ValueError "Input CSV file is empty") <> EmptyDataError /\
  exn_class_of (Exn ValueError "Input CSV file is empty") <> ParserError /\
  (input_source world_empty_csv = None ->
   Exn ValueError "Input CSV file is empty"
   = Exn FileNotFoundError ("Input file not found: " +:+ "data.csv") /\
   trace (snd (load_data world_empty_csv "data.csv" idle_state))
   = trace idle_state ++ [EvIsFile "data.csv"]) /\
  (forall e0 : exn,
      input_source world_empty_csv = Some (Raise e0) ->
      match exn_class_of e0 with
      | EmptyDataError =>
          Exn ValueError "Input CSV file is empty"
          = Exn ValueError "Input CSV file is empty"
      | ParserError =>
          Exn ValueError "Input CSV file is empty"
          = Exn ValueError "Invalid CSV format"
      | _ => Exn ValueError "Input CSV file is empty" = e0
      end).
Proof.
  apply (load_data_exceptions world_empty_csv "data.csv"
           (Exn ValueError "Input CSV file is empty") idle_state
           (snd (load_data world_empty_csv "data.csv" idle_state))).
  reflexivity.
Defined.



(** ** Edge cases of the window *)

Lemma roll_mean_short (xs : list fval) (n : nat) :
  (length xs < n)%nat -> roll_mean xs n n = replicate (length xs) NaN.
Proof.
  intros Hn. apply list_eq. intros i.
  destruct (decide (i < length xs)%nat) as [Hi|Hi].
  - rewrite roll_mean_warmup by lia.
    symmetry. by apply lookup_replicate_2.
  - rewrite !lookup_ge_None_2; [done| |].
    + rewrite length_replicate. lia.
    + rewrite length_roll_mean. lia.
Qed.

Lemma fgt_NaN (c : fval) : fgt c NaN = false.
Proof. by destruct c. Qed.

Lemma signals_all_NaN (closes : list fval) (n : nat) :
  length closes = n ->
  Z.b2z <$> zip_with fgt closes (replicate n NaN) = replicate n 0.
Proof.
  intros <-. induction closes as [|c closes IH]; [done|].
  simpl. rewrite fgt_NaN. simpl. by f_equal.
Qed.

Lemma Zsum_zeros (n : nat) : Zsum (replicate n 0) = 0.
Proof. induction n as [|n IH]; [done|]. simpl. by rewrite IH. Qed.

Lemma signal_rate_zeros (n : nat) :
  (0 < n)%nat -> signal_rate (replicate n 0) = Some 0%Q.
Proof.
  intros Hn. destruct n as [|n]; [lia|].
  unfold signal_rate, series_mean.
  change (replicate (S n) 0) with (0 :: replicate n 0).
  cbv beta iota.
  change (Zsum (0 :: replicate n 0)) with (0 + Zsum (replicate n 0)).
  rewrite Zsum_zeros.
  rewrite (round64_zero (inject_Z (0 + 0) / _)).
  - reflexivity.
  - unfold Qdiv. apply Qmult_0_l.
Qed.

(** X10: a window longer than the table (and below [2**63]).  No row has
    a full window: the statistic is NaN on every row, no row signals, and
    the signal rate is 0.0. *)
Theorem window_longer_than_table (df : DataFrame) (col : list cell)
    (closes : list fval) (window : Z) (s : State) :
  df_column (df_columns df) "close" = Some col ->
  numeric_values col = Some closes ->
  closes <> [] ->
  Z.of_nat (length closes) < window < 2 ^ 63 ->
  exists s1 s2 : State,
    compute_rolling_mean df (PyInt window) s
    = (Ok (replicate (length closes) NaN), s1) /\
    generate_signals df (replicate (length closes) NaN) s1
    = (Ok (replicate (length closes) 0), s2) /\
    signal_rate (replicate (length closes) 0) = Some 0%Q.
Proof.
  intros Hcol Hnum Hne Hw.
  eexists _, _. split; [|split].
  - rewrite (compute_rolling_mean_ok df col closes) by (done || lia).
    by rewrite roll_mean_short by lia.
  - rewrite (generate_signals_ok df col closes)
      by (done || by rewrite length_replicate).
    by rewrite signals_all_NaN.
  - apply signal_rate_zeros. destruct closes; [done|simpl; lia].
Qed.

Lemma window_longer_than_table_witness :
  exists s1 s2 : State,
    compute_rolling_mean (price_table [Some 1; Some 2; Some 3]%Q) (PyInt 10)
      idle_state
    = (Ok (replicate 3 NaN), s1) /\
    generate_signals (price_table [Some 1; Some 2; Some 3]%Q)
      (replicate 3 NaN) s1
    = (Ok (replicate 3 0), s2) /\
    signal_rate (replicate 3 0) = Some 0%Q.
Proof.
  apply (window_longer_than_table
           (price_table [Some 1; Some 2; Some 3]%Q)
           (CNum <$> [Some 1; Some 2; Some 3]%Q)
           [Some 1; Some 2; Some 3]%Q 10 idle_state).
  - reflexivity.
  - reflexivity.
  - discriminate.
  - simpl. lia.
Defined.

Lemma fgt_irrefl (c : fval) : fgt c c = false.
Proof.
  destruct c as [q|]; [|done]. unfold fgt.
  destruct (Qlt_le_dec q q) as [Hlt|_]; [|done].
  by apply Qlt_irrefl in Hlt.
Qed.

Lemma same_number_refl (c : fval) : same_number c c.
Proof. destruct c as [q|]; simpl; [reflexivity | exact I]. Qed.

Lemma roll_mean_window_one (xs : list fval) (i : nat) (c : fval) :
  xs !! i = Some c ->
  exists m : fval,
    roll_mean xs 1 1 !! i = Some m /\ same_number c m /\ fgt c m = false.
Proof.
  intros Hc. exists c. split; [by apply roll_mean_one|].
  split; [apply same_number_refl | apply fgt_irrefl].
Qed.

Lemma signals_window_one (closes : list fval) :
  Z.b2z <$> zip_with fgt closes (roll_mean closes 1 1)
  = replicate (length closes) 0.
Proof.
  apply list_eq. intros i.
  destruct (closes !! i) as [c|] eqn:Hc.
  - destruct (roll_mean_window_one closes i c Hc) as (m & Hm & _ & Hgt).
    rewrite (lookup_signals closes _ i c m Hc Hm), Hgt.
    symmetry. apply lookup_replicate_2. by eapply lookup_lt_Some.
  - apply lookup_ge_None_1 in Hc.
    rewrite !lookup_ge_None_2; [done| |].
    + rewrite length_replicate. lia.
    + rewrite length_fmap, length_zip_with, length_roll_mean. lia.
Qed.



(** X12: a missing close.  For a window from 1 to below [2**63], a row
    whose close is NaN makes the statistic NaN on that row and on the
    [window - 1] rows after it, and none of these rows signals. *)
Theorem missing_close_blanks_window (df : DataFrame) (col : list cell)
    (closes : list fval) (window : Z) (j : nat) (s : State) :
  df_column (df_columns df) "close" = Some col ->
  numeric_values col = Some closes ->
  1 <= window < 2 ^ 63 ->
  closes !! j = Some NaN ->
  exists (rm : list fval) (sig : list Z) (s1 s2 : State),
    compute_rolling_mean df (PyInt window) s = (Ok rm, s1) /\
    generate_signals df rm s1 = (Ok sig, s2) /\
    forall i : nat,
      (j <= i)%nat -> Z.of_nat i < Z.of_nat j + window ->
      (i < length closes)%nat ->
      rm !! i = Some NaN /\ sig !! i = Some 0.
Proof.
  intros Hcol Hnum Hw Hj.
  eexists _, _, _, _. split; [|split].
  - by rewrite (compute_rolling_mean_ok df col closes) by (done || lia).
  - by rewrite (generate_signals_ok df col closes)
      by (done || apply length_roll_mean).
  - intros i Hji Hiw Hi.
    assert (Hrm : roll_mean closes (Z.to_nat window) (Z.to_nat window) !! i
                  = Some NaN)
      by (apply (roll_mean_after_NaN closes _ i j); [done|lia|done]).
    split; [done|].
    destruct (lookup_lt_is_Some_2 closes i Hi) as [c Hc].
    rewrite (lookup_signals closes _ i c NaN Hc Hrm).
    by rewrite fgt_NaN.
Qed.

Lemma missing_close_blanks_window_witness :
  exists (rm : list fval) (sig : list Z) (s1 s2 : State),
    compute_rolling_mean
      (price_table [Some 1; NaN; Some 3; Some 4; Some 5]%Q) (PyInt 2)
      idle_state = (Ok rm, s1) /\
    generate_signals
      (price_table [Some 1; NaN; Some 3; Some 4; Some 5]%Q) rm s1
    = (Ok sig, s2) /\
    forall i : nat,
      (1 <= i)%nat -> Z.of_nat i < Z.of_nat 1 + 2 ->
      (i < length [Some 1; NaN; Some 3; Some 4; Some 5]%Q)%nat ->
      rm !! i = Some NaN /\ sig !! i = Some 0.
Proof.
  apply (missing_close_blanks_window
           (price_table [Some 1; NaN; Some 3; Some 4; Some 5]%Q)
           (CNum <$> [Some 1; NaN; Some 3; Some 4; Some 5]%Q)
           [Some 1; NaN; Some 3; Some 4; Some 5]%Q 2 1 idle_state).
  - reflexivity.
  - reflexivity.
  - lia.
  - reflexivity.
Defined.

(** ** The success record *)

Lemma is_signal_b2z (l : list bool) : Forall is_signal (Z.b2z <$> l).
Proof.
  induction l as [|b l IH]; [by apply Forall_nil|].
  apply Forall_cons. split; [|exact IH].
  destruct b; [by right | by left].
Qed.











(** The run on the closes 26.2, 26.0, 25.8, 25.9 with window 3: one row
    in four signals, and the clock readings 0.0 and 0.25 give 250 ms. *)
Example drifting_run_record :
  fst (run world_drifting) = Ok 0 /\
  out_file (snd (run world_drifting))
  = Document
      (success_record (PyStr "v1") 4 (Some (Float64.literal (25 # 100))) 250
         (PyInt 42)).
Proof. split; vm_compute; reflexivity. Qed.

(** ** What a finished run says about the run *)

Lemma report_success_inv (w : World) (metrics : json_doc) (elapsed_ms : Z)
    (s s' : State) (code : Z) :
  report_success w metrics elapsed_ms s = (Ok code, s') ->
  code = 0 /\
  write_attempt w (write_count s) = Written /\
  print_attempt w = None /\
  out_file s' = Document metrics /\
  write_count s' = S (write_count s) /\
  trace s'
  = trace s ++ [EvWrite (arg_output (args w)) metrics;
                EvLog INFO "Metrics written to %s"
                  [PyStr (arg_output (args w))];
                EvPrint metrics;
                EvLog INFO "Job completed successfully in %dms"
                  [PyInt elapsed_ms]].
Proof.
  unfold report_success, bind, write_output, print_json, logger_info, emit,
    ret, raise.
  destruct (write_attempt w (write_count s)) as [|e|e]; [|done|done].
  destruct (print_attempt w) as [e|]; [done|].
  intros H. injection H as <- <-.
  cbn [out_file write_count trace with_trace].
  repeat split. by rewrite <- !app_assoc.
Qed.

Lemma report_success_inv_Raise (w : World) (metrics : json_doc)
    (elapsed_ms : Z) (s s' : State) (e : exn) :
  report_success w metrics elapsed_ms s = (Raise e, s') ->
  write_count s' = S (write_count s) /\
  (write_fails (write_attempt w (write_count s)) e \/
   print_attempt w = Some e).
Proof.
  unfold report_success, bind, write_output, print_json, logger_info, emit,
    ret, raise, write_fails.
  destruct (write_attempt w (write_count s)) as [|e0|e0].
  - destruct (print_attempt w) as [e0|]; [|done].
    intros H. injection H as <- <-. by split; [|right].
  - intros H. injection H as <- <-. split; [done|]. left. by left.
  - intros H. injection H as <- <-. split; [done|]. left. by right.
Qed.

Lemma report_failure_inv (w : World) (t : Q) (e : exn) (s s' : State)
    (code : Z) :
  report_failure w t e s = (Ok code, s') ->
  code = 1 /\
  out_file s' = Document (error_record (version_var s) (exn_str e)) /\
  write_count s' = S (write_count s) /\
  EvLog ERROR "Pipeline failed: %s" [PyStr (exn_str e)] ∈ trace s'.
Proof.
  unfold report_failure, elapsed_since, bind, time_time, ret, logger_error,
    logger_info, emit, get_version, write_output.
  cbn [out_file write_count trace with_trace version_var clock_reads].
  destruct (write_attempt w (write_count s)) as [|e0|e0]; [|done|done].
  intros H. injection H as <- <-.
  cbn [out_file write_count trace with_trace].
  repeat split.
  rewrite !elem_of_app, !list_elem_of_singleton. tauto.
Qed.

Lemma report_failure_inv_Raise (w : World) (t : Q) (e e' : exn)
    (s s' : State) :
  report_failure w t e s = (Raise e', s') ->
  write_fails (write_attempt w (write_count s)) e' /\
  write_count s' = S (write_count s) /\
  last (trace s')
  = Some (EvWrite (arg_output (args w))
            (error_record (version_var s) (exn_str e))) /\
  (out_file s' = out_file s \/ out_file s' = Partial).
Proof.
  unfold report_failure, elapsed_since, bind, time_time, ret, logger_error,
    logger_info, emit, get_version, write_output, write_fails.
  cbn [out_file write_count trace with_trace version_var clock_reads].
  destruct (write_attempt w (write_count s)) as [|e0|e0]; [done| |].
  - intros H. injection H as <- <-.
    cbn [out_file write_count trace]. rewrite last_snoc.
    repeat split; by left.
  - intros H. injection H as <- <-.
    cbn [out_file write_count trace]. rewrite last_snoc.
    repeat split; by right.
Qed.

Lemma stages_write_count (w : World) (r : result (json_doc * Z))
    (s1 : State) :
  compute_stages w (clock w 0) (try_entry w) = (r, s1) ->
  write_count s1 = 0%nat /\ out_file s1 = initial_output w.
Proof.
  intros Hc.
  pose proof (compute_stages_same_file w (clock w 0) (try_entry w)) as H.
  rewrite Hc in H. exact H.
Qed.



(** X15: the only exception that leaves [main].  When [main] raises, the
    exception is the failure of the write of the error record: that write
    was the last thing the run did, it was the first or the second write
    of the run, and the output path holds no error record of this run
    (it holds what it held before that write, or a truncated file). *)
Theorem escaping_exception_is_error_write (w : World) (e : exn)
    (s' : State) :
  run w = (Raise e, s') ->
  write_fails (write_attempt w (pred (write_count s'))) e /\
  (write_count s' = 1%nat \/ write_count s' = 2%nat) /\
  (exists (version : pyval) (msg : string),
      last (trace s')
      = Some (EvWrite (arg_output (args w)) (error_record version msg))) /\
  (forall (version : pyval) (msg : string),
      initial_output w <> Document (error_record version msg) ->
      out_file s' <> Document (error_record version msg)).
Proof.
  rewrite run_unfold. unfold try_except.
  destruct (compute_stages w (clock w 0) (try_entry w))
    as [[[metrics elapsed_ms]|e0] s1] eqn:Hc.
  - rewrite (bind_Ok _ _ _ _ _ Hc). cbn [fst snd].
    destruct (stages_write_count w _ _ Hc) as [Hwc Hfile].
    pose proof (compute_stages_record w _ _ _ _ _ Hc) as Hrec.
    destruct (report_success w metrics elapsed_ms s1) as [[c|e1] s2] eqn:Hr.
    + done.
    + intros H.
      apply report_failure_inv_Raise in H as (Hfail & Hcount & Hlast & Hout).
      pose proof Hr as Hr'.
      apply report_success_inv_Raise in Hr' as [Hc2 _].
      rewrite Hcount. cbn [pred]. split; [done|].
      split; [right; lia|]. split; [by eexists _, _|].
      intros version msg Hinit.
      destruct Hout as [Hout|Hout]; rewrite Hout; [|done].
      (* the output path holds what the success branch left *)
      revert Hr. unfold report_success, bind, write_output, print_json,
        logger_info, emit, ret, raise.
      destruct (write_attempt w (write_count s1)) as [|e2|e2].
      * destruct (print_attempt w) as [e2|]; [|done].
        intros H. injection H as _ <-. cbn [out_file].
        intros Heq. injection Heq as ->.
        destruct (error_record_shape version msg) as [_ Hno]. by apply Hno.
      * intros H. injection H as _ <-. cbn [out_file]. by rewrite Hfile.
      * intros H. injection H as _ <-. by cbn [out_file].
  - rewrite (bind_Raise _ _ _ _ _ Hc).
    destruct (stages_write_count w _ _ Hc) as [Hwc Hfile].
    intros H.
    apply report_failure_inv_Raise in H as (Hfail & Hcount & Hlast & Hout).
    rewrite Hcount. cbn [pred]. split; [done|].
    split; [left; lia|]. split; [by eexists _, _|].
    intros version msg Hinit.
    destruct Hout as [Hout|Hout]; rewrite Hout; [by rewrite Hfile|done].
Qed.

Lemma escaping_exception_is_error_write_witness :
  write_fails
    (write_attempt world_unwritable
       (pred (write_count (snd (run world_unwritable)))))
    (Exn OSError "[Errno 13] Permission denied") /\
  (write_count (snd (run world_unwritable)) = 1%nat \/
   write_count (snd (run world_unwritable)) = 2%nat) /\
  (exists (version : pyval) (msg : string),
      last (trace (snd (run world_unwritable)))
      = Some (EvWrite (arg_output (args world_unwritable))
                (error_record version msg))) /\
  (forall (version : pyval) (msg : string),
      initial_output world_unwritable
      <> Document (error_record version msg) ->
      out_file (snd (run world_unwritable))
      <> Document (error_record version msg)).
Proof.
  apply (escaping_exception_is_error_write world_unwritable
           (Exn OSError "[Errno 13] Permission denied")
           (snd (run world_unwritable))).
  vm_compute. reflexivity.
Defined.

(** X16: the output path is written at most twice.  Every run attempts
    one write or two; it attempts two only when the stages had produced a
    success record and reporting it failed (the write or the print), in
    which case the run does not return 0. *)
Theorem write_attempts_bounded (w : World) :
  write_count (snd (run w)) = 1%nat \/
  (write_count (snd (run w)) = 2%nat /\
   fst (run w) <> Ok 0 /\
   exists (metrics : json_doc) (elapsed_ms : Z) (s1 : State) (e : exn),
     compute_stages w (clock w 0) (try_entry w)
     = (Ok (metrics, elapsed_ms), s1) /\
     (write_fails (write_attempt w 0) e \/ print_attempt w = Some e)).
Proof.
  rewrite run_unfold. unfold try_except.
  destruct (compute_stages w (clock w 0) (try_entry w))
    as [[[metrics elapsed_ms]|e] s1] eqn:Hc.
  - rewrite (bind_Ok _ _ _ _ _ Hc). cbn [fst snd].
    destruct (stages_write_count w _ _ Hc) as [Hwc _].
    destruct (report_success w metrics elapsed_ms s1) as [[c|e] s2] eqn:Hr.
    + apply report_success_inv in Hr as (_ & _ & _ & _ & Hcount & _).
      left. cbn [snd]. lia.
    + apply report_success_inv_Raise in Hr as [Hcount Hwhy].
      rewrite Hwc in Hwhy.
      right.
      destruct (report_failure w (clock w 0) e s2) as [[c|e'] s3] eqn:Hf.
      * apply report_failure_inv in Hf as (-> & _ & Hcount3 & _).
        cbn [fst snd]. split; [lia|]. split; [done|].
        by exists metrics, elapsed_ms, s1, e.
      * apply report_failure_inv_Raise in Hf as (_ & Hcount3 & _ & _).
        cbn [fst snd]. split; [lia|]. split; [done|].
        by exists metrics, elapsed_ms, s1, e.
  - rewrite (bind_Raise _ _ _ _ _ Hc).
    destruct (stages_write_count w _ _ Hc) as [Hwc _].
    left.
    destruct (report_failure w (clock w 0) e s1) as [[c|e'] s3] eqn:Hf.
    + apply report_failure_inv in Hf as (_ & _ & Hcount3 & _).
      cbn [snd]. lia.
    + apply report_failure_inv_Raise in Hf as (_ & Hcount3 & _ & _).
      cbn [snd]. lia.
Qed.

Lemma report_failure_open_fails (w : World) (t : Q) (e e' : exn)
    (s : State) :
  write_attempt w (write_count s) = OpenFails e' ->
  fst (report_failure w t e s) = Raise e' /\
  out_file (snd (report_failure w t e s)) = out_file s.
Proof.
  intros H.
  unfold report_failure, elapsed_since, bind, time_time, ret, logger_error,
    logger_info, emit, get_version, write_output.
  cbn [out_file write_count trace with_trace version_var clock_reads].
  by rewrite H.
Qed.

Lemma report_success_open_fails (w : World) (metrics : json_doc)
    (elapsed_ms : Z) (s : State) (e : exn) :
  write_attempt w (write_count s) = OpenFails e ->
  fst (report_success w metrics elapsed_ms s) = Raise e /\
  out_file (snd (report_success w metrics elapsed_ms s)) = out_file s.
Proof.
  intros H. unfold report_success, bind, write_output. by rewrite H.
Qed.

(** X17: an output path that cannot be opened.  When every [open] of the
    output path fails, the run ends with the exception of an [open]
    leaving [main], and the path holds what it held before the run: a
    document of an earlier run stays in place. *)
Theorem unopenable_output_keeps_old_content (w : World) :
  (forall n : nat, exists e : exn, write_attempt w n = OpenFails e) ->
  exists (e : exn) (s' : State),
    run w = (Raise e, s') /\
    (exists n : nat, write_attempt w n = OpenFails e) /\
    out_file s' = initial_output w.
Proof.
  intros Hopen. rewrite run_unfold. unfold try_except.
  destruct (compute_stages w (clock w 0) (try_entry w))
    as [[[metrics elapsed_ms]|e] s1] eqn:Hc.
  - rewrite (bind_Ok _ _ _ _ _ Hc). cbn [fst snd].
    destruct (stages_write_count w _ _ Hc) as [_ Hfile].
    destruct (Hopen (write_count s1)) as [e1 He1].
    destruct (report_success_open_fails w metrics elapsed_ms s1 e1 He1)
      as [Hr Hout].
    destruct (report_success w metrics elapsed_ms s1) as [r s2].
    cbn [fst snd] in Hr, Hout. subst r.
    destruct (Hopen (write_count s2)) as [e2 He2].
    destruct (report_failure_open_fails w (clock w 0) e1 e2 s2 He2)
      as [Hf Hout2].
    destruct (report_failure w (clock w 0) e1 s2) as [r s3].
    cbn [fst snd] in Hf, Hout2. subst r.
    exists e2, s3. split; [done|]. split; [by eexists|]. congruence.
  - rewrite (bind_Raise _ _ _ _ _ Hc).
    destruct (stages_write_count w _ _ Hc) as [_ Hfile].
    destruct (Hopen (write_count s1)) as [e2 He2].
    destruct (report_failure_open_fails w (clock w 0) e e2 s1 He2)
      as [Hf Hout2].
    destruct (report_failure w (clock w 0) e s1) as [r s3].
    cbn [fst snd] in Hf, Hout2. subst r.
    exists e2, s3. split; [done|]. split; [by eexists|]. congruence.
Qed.

Lemma unopenable_output_keeps_old_content_witness :
  exists (e : exn) (s' : State),
    run world_stale_output = (Raise e, s') /\
    (exists n : nat, write_attempt world_stale_output n = OpenFails e) /\
    out_file s' = initial_output world_stale_output.
Proof.
  apply (unopenable_output_keeps_old_content world_stale_output).
  intros n. eexists. reflexivity.
Defined.

(** ** How many rows can signal *)

Lemma Zsum_prefix_zero (l : list Z) (k : nat) :
  Forall is_signal l ->
  (forall i : nat, (i < k)%nat -> (i < length l)%nat -> l !! i = Some 0) ->
  Zsum l <= Z.of_nat (length l) - Z.of_nat (k `min` length l).
Proof.
  revert k. induction l as [|x l IH]; intros k Hsig Hzero.
  - simpl. lia.
  - apply Forall_cons in Hsig as [Hx Hsig].
    destruct k as [|k].
    + pose proof (Zsum_signals l Hsig). simpl.
      destruct Hx as [-> | ->]; lia.
    + assert (x = 0) as ->.
      { specialize (Hzero 0%nat ltac:(lia) ltac:(simpl; lia)).
        by injection Hzero. }
      specialize (IH k Hsig).
      assert (Hl : forall i : nat,
                 (i < k)%nat -> (i < length l)%nat -> l !! i = Some 0).
      { intros i Hi Hlen.
        exact (Hzero (S i) ltac:(lia) ltac:(simpl; lia)). }
      specialize (IH Hl). simpl. lia.
Qed.

Lemma signals_warmup (closes : list fval) (n i : nat) :
  (i < length closes)%nat -> (i + 1 < n)%nat ->
  (Z.b2z <$> zip_with fgt closes (roll_mean closes n n)) !! i = Some 0.
Proof.
  intros Hi Hwarm.
  destruct (lookup_lt_is_Some_2 closes i Hi) as [c Hc].
  rewrite (lookup_signals closes _ i c NaN Hc (roll_mean_warmup _ _ _ Hi Hwarm)).
  by rewrite fgt_NaN.
Qed.

(** X18: how many rows can signal, for a window from 1 to below
    [2**63].  The rows before the first full window count as rows but
    never signal, so at most [rows - (window - 1)] rows signal; and the
    first row never signals, whatever the window is, so the signals are
    never all 1. *)
Theorem signal_count_bound (df : DataFrame) (col : list cell)
    (closes : list fval) (window : Z) (s : State) :
  df_column (df_columns df) "close" = Some col ->
  numeric_values col = Some closes ->
  closes <> [] ->
  1 <= window < 2 ^ 63 ->
  exists (rm : list fval) (sig : list Z) (s1 s2 : State),
    compute_rolling_mean df (PyInt window) s = (Ok rm, s1) /\
    generate_signals df rm s1 = (Ok sig, s2) /\
    length sig = length closes /\
    0 <= Zsum sig /\
    Zsum sig <= Z.max 0 (Z.of_nat (length closes) - (window - 1)) /\
    Zsum sig < Z.of_nat (length closes) /\
    sig !! 0%nat = Some 0.
Proof.
  intros Hcol Hnum Hne Hw.
  set (n := Z.to_nat window).
  set (sig := Z.b2z <$> zip_with fgt closes (roll_mean closes n n)).
  assert (Hlen : length sig = length closes).
  { unfold sig. rewrite length_fmap, length_zip_with, length_roll_mean. lia. }
  assert (Hsig : Forall is_signal sig) by apply is_signal_b2z.
  assert (Hpos : (0 < length closes)%nat)
    by (destruct closes; [done|simpl; lia]).
  assert (Hbound : Zsum sig
                   <= Z.of_nat (length sig)
                      - Z.of_nat ((n - 1) `min` length sig)).
  { apply Zsum_prefix_zero; [done|].
    intros i Hi Hi'. apply signals_warmup; lia. }
  assert (Hfirst : sig !! 0%nat = Some 0).
  { destruct (decide (n = 1%nat)) as [Hone|Hmore].
    - unfold sig. rewrite Hone, signals_window_one.
      by apply lookup_replicate_2.
    - apply signals_warmup; lia. }
  assert (Hless : Zsum sig <= Z.of_nat (length sig) - 1).
  { pose proof (Zsum_prefix_zero sig 1 Hsig) as H1.
    assert (Hz : forall i : nat,
               (i < 1)%nat -> (i < length sig)%nat -> sig !! i = Some 0).
    { intros i Hi _. by replace i with 0%nat by lia. }
    specialize (H1 Hz). lia. }
  assert (H0 : 0 <= Zsum sig) by (by apply Zsum_signals).
  assert (H1 : Zsum sig
               <= Z.max 0 (Z.of_nat (length closes) - (window - 1))) by lia.
  assert (H2 : Zsum sig < Z.of_nat (length closes)) by lia.
  eexists _, _, _, _. split; [|split].
  - by rewrite (compute_rolling_mean_ok df col closes) by (done || lia).
  - by rewrite (generate_signals_ok df col closes)
      by (done || apply length_roll_mean).
  - repeat split; assumption.
Qed.

Lemma signal_count_bound_witness :
  exists (rm : list fval) (sig : list Z) (s1 s2 : State),
    compute_rolling_mean
      (price_table [Some 1; Some 2; Some 3; Some 4; Some 5]%Q) (PyInt 3)
      idle_state = (Ok rm, s1) /\
    generate_signals
      (price_table [Some 1; Some 2; Some 3; Some 4; Some 5]%Q) rm s1
    = (Ok sig, s2) /\
    length sig = length [Some 1; Some 2; Some 3; Some 4; Some 5]%Q /\
    0 <= Zsum sig /\
    Zsum sig
    <= Z.max 0
         (Z.of_nat (length [Some 1; Some 2; Some 3; Some 4; Some 5]%Q)
          - (3 - 1)) /\
    Zsum sig < Z.of_nat (length [Some 1; Some 2; Some 3; Some 4; Some 5]%Q) /\
    sig !! 0%nat = Some 0.
Proof.
  apply (signal_count_bound
           (price_table [Some 1; Some 2; Some 3; Some 4; Some 5]%Q)
           (CNum <$> [Some 1; Some 2; Some 3; Some 4; Some 5]%Q)
           [Some 1; Some 2; Some 3; Some 4; Some 5]%Q 3 idle_state).
  - reflexivity.
  - reflexivity.
  - discriminate.
  - lia.
Defined.
